(** * Voice AI Assistant (queryanalyzer.py): a shallow embedding

    The program is one Streamlit script.  Every user interaction re-runs
    the script from the top against a persistent [st.session_state]; the
    script talks to three outside services (WhisperX, the Gemini client
    and the file system).  The embedding below keeps that shape:

    - Python [str] values are lists of Unicode code points;
    - the session state is a record with one field per key of
      [session_defaults] (plus the widget key [recorder]);
    - the outside services are oracles gathered in a record [Env];
    - a script run is a computation in a small state-and-exception monad
      whose outcomes are: normal end, an uncaught [Exception], or the
      control-flow exception of [st.rerun()]. *)

From Stdlib Require Import NArith String Ascii Bool Arith Lia List.
From Stdlib Require Import Strings.Byte.
Import ListNotations.
Open Scope list_scope.

(** ** Python text *)

Module Py.

Local Open Scope N_scope.

(** A Python [str]: its sequence of code points. *)
Definition pystr := list N.

(** An ASCII literal of the source, as a [pystr]. *)
Definition str (s : string) : pystr := map N_of_ascii (list_ascii_of_string s).

(** [bool(s)] for a [str]. *)
Definition truthy (s : pystr) : bool :=
  match s with [] => false | _ :: _ => true end.

(** [Py_UNICODE_ISSPACE]: the characters [str.strip()] removes. *)
Definition is_space (c : N) : bool :=
  ((0x09 <=? c) && (c <=? 0x0D)) || ((0x1C <=? c) && (c <=? 0x20))
  || (c =? 0x85) || (c =? 0xA0) || (c =? 0x1680)
  || ((0x2000 <=? c) && (c <=? 0x200A))
  || (c =? 0x2028) || (c =? 0x2029) || (c =? 0x202F) || (c =? 0x205F)
  || (c =? 0x3000).

Fixpoint lstrip (s : pystr) : pystr :=
  match s with
  | [] => []
  | c :: t => if is_space c then lstrip t else s
  end.

Definition rstrip (s : pystr) : pystr := rev (lstrip (rev s)).

(** [s.strip()] *)
Definition strip (s : pystr) : pystr := rstrip (lstrip s).

(** [s.split(sep)] for a one-character separator: never the empty list. *)
Fixpoint split (sep : N) (s : pystr) : list pystr :=
  match s with
  | [] => [[]]
  | c :: t =>
      if c =? sep then [] :: split sep t
      else match split sep t with
           | [] => [[c]]
           | cur :: rest => (c :: cur) :: rest
           end
  end.

(** [sep.join(l)] *)
Fixpoint join (sep : pystr) (l : list pystr) : pystr :=
  match l with
  | [] => []
  | x :: rest =>
      match rest with
      | [] => x
      | _ :: _ => x ++ sep ++ join sep rest
      end
  end.

Definition NL : N := 10.
Definition QUOTE : N := 39.
Definition DQUOTE : N := 34.
Definition BACKSLASH : N := 92.

(** *** [repr] of a [str], as the f-string of [chat_response] prints the
    message dictionaries.  [isprintable] is [str.isprintable] on the
    characters above U+007F, a table of the Unicode database. *)

Definition hex_digit (n : N) : N :=
  if n <? 10 then 48 + n else 97 + (n - 10).

Fixpoint hex_fixed (width : nat) (n : N) : pystr :=
  match width with
  | O => []
  | S w => hex_fixed w (N.shiftr n 4) ++ [hex_digit (N.land n 15)]
  end.

Definition contains (c : N) (s : pystr) : bool := existsb (N.eqb c) s.

Definition repr_quote (s : pystr) : N :=
  if contains QUOTE s && negb (contains DQUOTE s) then DQUOTE else QUOTE.

Definition repr_char (isprintable : N -> bool) (quote c : N) : pystr :=
  if (c =? quote) || (c =? BACKSLASH) then [BACKSLASH; c]
  else if c =? 9 then str "\t"
  else if c =? 10 then str "\n"
  else if c =? 13 then str "\r"
  else if (c <? 32) || (c =? 0x7F) then str "\x" ++ hex_fixed 2 c
  else if c <? 0x7F then [c]
  else if isprintable c then [c]
  else if c <=? 0xFF then str "\x" ++ hex_fixed 2 c
  else if c <=? 0xFFFF then str "\u" ++ hex_fixed 4 c
  else str "\U" ++ hex_fixed 8 c.

Definition repr_str (isprintable : N -> bool) (s : pystr) : pystr :=
  let q := repr_quote s in
  [q] ++ flat_map (repr_char isprintable q) s ++ [q].

(** *** [s.encode()]: UTF-8, strict.  A lone surrogate (or a value that
    is no code point) has no encoding: Python raises
    [UnicodeEncodeError]. *)

Definition byte_of (n : N) : byte :=
  match Byte.of_N n with Some b => b | None => x00 end.

Definition utf8_char (c : N) : option (list byte) :=
  if c <? 0x80 then Some [byte_of c]
  else if c <? 0x800 then
    Some [byte_of (N.lor 0xC0 (N.shiftr c 6));
          byte_of (N.lor 0x80 (N.land c 0x3F))]
  else if c <? 0x10000 then
    if (0xD800 <=? c) && (c <=? 0xDFFF) then None
    else Some [byte_of (N.lor 0xE0 (N.shiftr c 12));
               byte_of (N.lor 0x80 (N.land (N.shiftr c 6) 0x3F));
               byte_of (N.lor 0x80 (N.land c 0x3F))]
  else if c <? 0x110000 then
    Some [byte_of (N.lor 0xF0 (N.shiftr c 18));
          byte_of (N.lor 0x80 (N.land (N.shiftr c 12) 0x3F));
          byte_of (N.lor 0x80 (N.land (N.shiftr c 6) 0x3F));
          byte_of (N.lor 0x80 (N.land c 0x3F))]
  else None.

Fixpoint encode (s : pystr) : option (list byte) :=
  match s with
  | [] => Some []
  | c :: t =>
      match utf8_char c, encode t with
      | Some bs, Some rest => Some (bs ++ rest)
      | _, _ => None
      end
  end.

End Py.
Import Py.

(** ** Data model *)

(** A raised [Exception]; [str(e)] is its message. *)
Record Exn := { exn_class : pystr; exn_msg : pystr }.

Definition str_of_exn (e : Exn) : pystr := exn_msg e.

(** The bytes of a recording (what [UploadedFile.read()] returns).  The
    object itself is always truthy. *)
Definition Audio := list byte.

(** A chat message dictionary [{"role": ..., "content": ...}]. *)
Record ChatMessage := { role : pystr; content : pystr }.

Definition role_user : pystr := str "user".
Definition role_assistant : pystr := str "assistant".

(** The name of a temporary file: the n-th file that
    [tempfile.NamedTemporaryFile] created, with the suffix asked for. *)
Record Path := { tmp_id : nat; suffix : pystr }.

(** One slide: the layout index, the title shape and placeholder 1. *)
Record Slide := { layout : nat; slide_title : pystr; slide_body : pystr }.

Inductive FileContent :=
| Bytes (b : list byte)
| Deck (slides : list Slide).

Record TmpFile := { file_suffix : pystr; file_data : FileContent }.

(** [st.session_state].  [audio_path] is [None] for the empty string of
    the source; [recorder] is [None] while the widget key is absent. *)
Record SessionState := {
  page : pystr;
  transcription : pystr;
  summary : pystr;
  audio_data : option Audio;
  audio_path : option Path;
  messages : list ChatMessage;
  ppt_path : option Path;
  summary_path : option Path;
  ppt_title : pystr;
  ppt_headings : pystr;
  recorder : option (option Audio)
}.

Definition session_defaults : SessionState := {|
  page := str "main";
  transcription := [];
  summary := [];
  audio_data := None;
  audio_path := None;
  messages := [];
  ppt_path := None;
  summary_path := None;
  ppt_title := [];
  ppt_headings := [];
  recorder := None
|}.

(** Field assignments [st.session_state.k = v]. *)
Definition set_page v s :=
  {| page := v; transcription := transcription s; summary := summary s;
     audio_data := audio_data s; audio_path := audio_path s;
     messages := messages s; ppt_path := ppt_path s;
     summary_path := summary_path s; ppt_title := ppt_title s;
     ppt_headings := ppt_headings s; recorder := recorder s |}.
Definition set_transcription v s :=
  {| page := page s; transcription := v; summary := summary s;
     audio_data := audio_data s; audio_path := audio_path s;
     messages := messages s; ppt_path := ppt_path s;
     summary_path := summary_path s; ppt_title := ppt_title s;
     ppt_headings := ppt_headings s; recorder := recorder s |}.
Definition set_summary v s :=
  {| page := page s; transcription := transcription s; summary := v;
     audio_data := audio_data s; audio_path := audio_path s;
     messages := messages s; ppt_path := ppt_path s;
     summary_path := summary_path s; ppt_title := ppt_title s;
     ppt_headings := ppt_headings s; recorder := recorder s |}.
Definition set_audio_data v s :=
  {| page := page s; transcription := transcription s; summary := summary s;
     audio_data := v; audio_path := audio_path s;
     messages := messages s; ppt_path := ppt_path s;
     summary_path := summary_path s; ppt_title := ppt_title s;
     ppt_headings := ppt_headings s; recorder := recorder s |}.
Definition set_audio_path v s :=
  {| page := page s; transcription := transcription s; summary := summary s;
     audio_data := audio_data s; audio_path := v;
     messages := messages s; ppt_path := ppt_path s;
     summary_path := summary_path s; ppt_title := ppt_title s;
     ppt_headings := ppt_headings s; recorder := recorder s |}.
Definition set_messages v s :=
  {| page := page s; transcription := transcription s; summary := summary s;
     audio_data := audio_data s; audio_path := audio_path s;
     messages := v; ppt_path := ppt_path s;
     summary_path := summary_path s; ppt_title := ppt_title s;
     ppt_headings := ppt_headings s; recorder := recorder s |}.
Definition set_ppt_path v s :=
  {| page := page s; transcription := transcription s; summary := summary s;
     audio_data := audio_data s; audio_path := audio_path s;
     messages := messages s; ppt_path := v;
     summary_path := summary_path s; ppt_title := ppt_title s;
     ppt_headings := ppt_headings s; recorder := recorder s |}.
Definition set_summary_path v s :=
  {| page := page s; transcription := transcription s; summary := summary s;
     audio_data := audio_data s; audio_path := audio_path s;
     messages := messages s; ppt_path := ppt_path s;
     summary_path := v; ppt_title := ppt_title s;
     ppt_headings := ppt_headings s; recorder := recorder s |}.
Definition set_recorder v s :=
  {| page := page s; transcription := transcription s; summary := summary s;
     audio_data := audio_data s; audio_path := audio_path s;
     messages := messages s; ppt_path := ppt_path s;
     summary_path := summary_path s; ppt_title := ppt_title s;
     ppt_headings := ppt_headings s; recorder := v |}.

(** Everything outside the session that the script changes: the
    temporary files (the i-th one created is entry i) and the prompts
    sent so far to [model.generate_content], oldest first. *)
Record World := { files : list TmpFile; gen_log : list pystr }.

(** What a run shows, in order. *)
Inductive Element :=
| Title (s : pystr)
| Subheader (s : pystr)
| Markdown (s : pystr)
| Write (s : pystr)
| ErrorBox (s : pystr)
| Success (s : pystr)
| AudioPlayer (a : Audio)
| ChatBubble (who body : pystr)
| DownloadButton (label : pystr) (data : FileContent) (file_name mime : pystr).

(** A WhisperX segment; [start_2f] is [seg['start']] as the format
    [:.2f] prints it. *)
Record Segment := { start_2f : pystr; text : pystr }.

(** The outside services.
    - [whisperx_align]: lines 47-57 of [transcribe_audio] (load the
      models, transcribe, load the audio, align) on the recorded file;
    - [generate_content n p]: the text of the response of the n-th call
      of [model.generate_content], on prompt [p], or what it raised;
    - [shape_set_text s]: what python-pptx raises, if anything, when the
      text [s] is assigned to a shape ([shape.text = s]): lxml refuses
      the characters XML cannot hold;
    - [prs_save]: whether python-pptx fails to write the deck. *)
Record Env := {
  isprintable : N -> bool;
  whisperx_align : option Path -> Exn + list Segment;
  generate_content : nat -> pystr -> Exn + pystr;
  shape_set_text : pystr -> option Exn;
  prs_save : list Slide -> option Exn
}.

(** The widget values of one run. *)
Record Inputs := {
  in_recorder : option Audio;
  click_new_session : bool;
  click_generate_summary : bool;
  click_create_ppt : bool;
  click_chat : bool;
  click_back : bool;
  in_title : pystr;
  in_headings : pystr;
  click_form_submit : bool;
  in_chat : option pystr;
  now : pystr
}.

(** ** The script monad *)

Record Machine := { ss : SessionState; world : World; ui : list Element }.

Inductive Outcome (A : Type) :=
| Ret (a : A)
| Raise (e : Exn)
| Rerun.
Arguments Ret {A} a.
Arguments Raise {A} e.
Arguments Rerun {A}.

Definition M (A : Type) := Machine -> Outcome A * Machine.

Definition ret {A} (a : A) : M A := fun m => (Ret a, m).

Definition bind {A B} (c : M A) (k : A -> M B) : M B := fun m =>
  match c m with
  | (Ret a, m') => k a m'
  | (Raise e, m') => (Raise e, m')
  | (Rerun, m') => (Rerun, m')
  end.

Notation "x <- c ;; k" := (bind c (fun x => k))
  (at level 61, c at next level, right associativity).
Notation "c ;; k" := (bind c (fun _ => k))
  (at level 61, right associativity).

Definition raise {A} (e : Exn) : M A := fun m => (Raise e, m).

(** [st.rerun()]: a [BaseException] that no [except Exception] catches. *)
Definition st_rerun {A} : M A := fun m => (Rerun, m).

(** [try: c  except Exception as e: h e] *)
Definition try_except {A} (c : M A) (h : Exn -> M A) : M A := fun m =>
  match c m with
  | (Raise e, m') => h e m'
  | r => r
  end.

Definition when (b : bool) (c : M unit) : M unit := if b then c else ret tt.

Definition get_ss : M SessionState := fun m => (Ret (ss m), m).

Definition modify_ss (f : SessionState -> SessionState) : M unit := fun m =>
  (Ret tt, {| ss := f (ss m); world := world m; ui := ui m |}).

Definition get_world : M World := fun m => (Ret (world m), m).

Definition put_world (w : World) : M unit := fun m =>
  (Ret tt, {| ss := ss m; world := w; ui := ui m |}).

(** An element is put on the screen.  The texts that reach the screen
    come from the browser and from the replies of the services, which
    deliver well-formed Unicode; the refusal of a lone surrogate by the
    Streamlit calls is outside the embedding. *)
Definition show (e : Element) : M unit := fun m =>
  (Ret tt, {| ss := ss m; world := world m; ui := ui m ++ [e] |}).

(** ** The file system *)

Definition pystr_eqb (a b : pystr) : bool :=
  if list_eq_dec N.eq_dec a b then true else false.

Fixpoint replace_nth {A} (n : nat) (x : A) (l : list A) : list A :=
  match l, n with
  | [], _ => []
  | _ :: t, O => x :: t
  | y :: t, S k => y :: replace_nth k x t
  end.

Definition lookup_file (w : World) (p : Path) : option FileContent :=
  match nth_error (files w) (tmp_id p) with
  | Some f =>
      if pystr_eqb (file_suffix f) (suffix p) then Some (file_data f) else None
  | None => None
  end.

(** [tempfile.NamedTemporaryFile(delete=False, suffix=sfx)]: a new,
    empty file under a name not used before. *)
Definition named_temporary_file (sfx : pystr) : M Path :=
  w <- get_world ;;
  put_world {| files := files w ++ [{| file_suffix := sfx; file_data := Bytes [] |}];
               gen_log := gen_log w |} ;;
  ret {| tmp_id := length (files w); suffix := sfx |}.

Definition write_file (p : Path) (c : FileContent) : M unit :=
  w <- get_world ;;
  put_world {| files := replace_nth (tmp_id p)
                          {| file_suffix := suffix p; file_data := c |} (files w);
               gen_log := gen_log w |}.

Definition TypeError : Exn :=
  {| exn_class := str "TypeError";
     exn_msg := str "expected str, bytes or os.PathLike object, not NoneType" |}.
Definition FileNotFoundError : Exn :=
  {| exn_class := str "FileNotFoundError";
     exn_msg := str "[Errno 2] No such file or directory" |}.
Definition UnicodeEncodeError : Exn :=
  {| exn_class := str "UnicodeEncodeError";
     exn_msg := str "'utf-8' codec can't encode character: surrogates not allowed" |}.

(** [open(p, "rb")], read by the download button. *)
Definition open_rb (p : option Path) : M FileContent :=
  match p with
  | None => raise TypeError
  | Some p =>
      w <- get_world ;;
      match lookup_file w p with
      | Some c => ret c
      | None => raise FileNotFoundError
      end
  end.

(** [s.encode()] as a step of the script. *)
Definition py_encode (s : pystr) : M (list byte) :=
  match encode s with
  | Some b => ret b
  | None => raise UnicodeEncodeError
  end.

(** ** Prompts *)

Definition lines (l : list pystr) : pystr := join [NL] l.

(** The f-string of [generate_summary]. *)
Definition summary_prompt (transcript : pystr) : pystr :=
  lines [ [];
          str "        Create a professional summary from this audio transcript:";
          str "        " ++ transcript;
          str "        ";
          str "        Include:";
          str "        - Key discussion points";
          str "        - Important figures/dates";
          str "        - Action items";
          str "        - Recommendations";
          str "        - Overall sentiment analysis";
          str "        ";
          str "        Format with markdown headings and bullet points.";
          str "        " ].

(** The f-string of the loop of [create_presentation]. *)
Definition slide_prompt (heading transcript : pystr) : pystr :=
  lines [ [];
          str "            Create 3-5 bullet points for '" ++ heading ++ str "' using:";
          str "            " ++ transcript;
          str "            ";
          str "            Rules:";
          str "            - Use concise business language";
          str "            - Include key figures/dates";
          str "            - Format as markdown list";
          str "            " ].

(** [l[-5:]] *)
Definition last5 {A} (l : list A) : list A := skipn (length l - 5) l.

(** [repr] of a message dictionary and [str] of a list of them. *)
Definition repr_message (pr : N -> bool) (m : ChatMessage) : pystr :=
  str "{'role': " ++ repr_str pr (role m)
  ++ str ", 'content': " ++ repr_str pr (content m) ++ str "}".

Definition str_messages (pr : N -> bool) (l : list ChatMessage) : pystr :=
  str "[" ++ join (str ", ") (map (repr_message pr) l) ++ str "]".

(** The f-string [system_prompt] of [chat_response]; [history] is the
    whole of [st.session_state.messages]. *)
Definition chat_prompt (pr : N -> bool) (transcript : pystr)
    (history : list ChatMessage) (prompt : pystr) : pystr :=
  lines [ [];
          str "    ROLE: Voice Analysis Assistant";
          str "    CONTEXT: " ++ transcript;
          str "    HISTORY: " ++ str_messages pr (last5 history);
          str "    ";
          str "    Rules:";
          str "    1. Answer strictly based on the audio content";
          str "    2. If question is unrelated to audio, respond politely with different  wordings for each unrelated questions";
          str "    3. Maintain conversational flow";
          str "    4.You are a chatbot named " ++ [DQUOTE] ++ str "Chat with your voice"
            ++ [DQUOTE] ++ str " . You need to understand the audio trabscribe intent or meaning and the query meaning and respond correctly";
          str "    5. Use markdown formatting when appropriate";
          str "    6. Keep responses concise but helpful";
          str "    7. Use markdown formatting (**bold**, *italics*, lists) when helpful";
          str "    8. Never mention you're an AI or language model";
          str "    9. Maintain friendly, professional tone but dont need to wish or greeting in each response";
          str "    10.Acknowledge previous interactions when relevant";
          str "    11.In some cases for unrelated questions you can also give like  " ++ [DQUOTE]
            ++ str "I specialize in analyzing the current recording. Ask me about: [list key topics]"
            ++ [DQUOTE];
          str "    ";
          str "    USER QUESTION: " ++ prompt;
          str "    " ].

(** The markers that open the error strings of the two adapters. *)
Definition summary_error_marker : pystr :=
  [0x274C%N] ++ str " Error generating summary: ".
Definition chat_error_marker : pystr :=
  [0x26A0%N; 0xFE0F%N] ++ str " Error: ".

(** ** The program *)

Definition is_some {A} (o : option A) : bool :=
  match o with Some _ => true | None => false end.

Section Program.

Variable E : Env.
Variable inp : Inputs.

(** [model.generate_content(prompt)] followed by [response.text]: the
    prompt is recorded, and either the text comes back or the exception
    of the client does. *)
Definition model_generate_text (prompt : pystr) : M pystr := fun m =>
  let w := world m in
  let m' := {| ss := ss m;
               world := {| files := files w; gen_log := gen_log w ++ [prompt] |};
               ui := ui m |} in
  match generate_content E (length (gen_log w)) prompt with
  | inr t => (Ret t, m')
  | inl e => (Raise e, m')
  end.

Definition segment_line (seg : Segment) : pystr :=
  str "[" ++ start_2f seg ++ str "s] " ++ text seg.

Definition transcribe_audio : M pystr :=
  s <- get_ss ;;
  match whisperx_align E (audio_path s) with
  | inl e => raise e
  | inr segments => ret (join [NL] (map segment_line segments))
  end.

Definition generate_summary : M pystr :=
  try_except
    (s <- get_ss ;;
     model_generate_text (summary_prompt (transcription s)))
    (fun e => ret (summary_error_marker ++ str_of_exn e)).

(** [[h.strip() for h in headings.split('\n') if h.strip()]] *)
Definition heading_lines (headings : pystr) : list pystr :=
  map strip (filter (fun h => truthy (strip h)) (split NL headings)).

(** The text put in the content placeholder of a slide. *)
Definition bullets (response_text : pystr) : pystr :=
  join [NL] (map (fun point => str "- " ++ point)
               (filter (fun point => truthy (strip point))
                  (split NL response_text))).

Definition title_slide (title : pystr) : Slide :=
  {| layout := 0; slide_title := title;
     slide_body := str "Generated " ++ now inp |}.

Definition content_slide (heading response_text : pystr) : Slide :=
  {| layout := 1; slide_title := heading; slide_body := bullets response_text |}.

(** [shape.text = s]: the assignments to [title_shape], [subtitle_shape],
    [title] and [content]. *)
Definition set_shape_text (s : pystr) : M unit :=
  match shape_set_text E s with
  | Some e => raise e
  | None => ret tt
  end.

(** The loop of [create_presentation] over the headings still to do;
    [prs] is the deck built so far.  The title of the new slide is
    assigned before the service is called, its content after. *)
Fixpoint add_content_slides (hs : list pystr) (prs : list Slide)
  : M (list Slide) :=
  match hs with
  | [] => ret prs
  | heading :: rest =>
      set_shape_text heading ;;
      s <- get_ss ;;
      response_text <- model_generate_text (slide_prompt heading (transcription s)) ;;
      set_shape_text (bullets response_text) ;;
      add_content_slides rest (prs ++ [content_slide heading response_text])
  end.

(** [prs.save(tmp_file.name)] *)
Definition presentation_save (p : Path) (prs : list Slide) : M unit :=
  match prs_save E prs with
  | Some e => raise e
  | None => write_file p (Deck prs)
  end.

Definition create_presentation (title headings : pystr) : M (option Path) :=
  try_except
    (set_shape_text title ;;
     set_shape_text (str "Generated " ++ now inp) ;;
     prs <- add_content_slides (heading_lines headings) [title_slide title] ;;
     tmp_file <- named_temporary_file (str ".pptx") ;;
     presentation_save tmp_file prs ;;
     ret (Some tmp_file))
    (fun e =>
       show (ErrorBox (str "PPT Error: " ++ str_of_exn e)) ;;
       ret None).

Definition chat_response (prompt : pystr) : M pystr :=
  s <- get_ss ;;
  let system_prompt :=
    chat_prompt (isprintable E) (transcription s) (messages s) prompt in
  try_except
    (model_generate_text system_prompt)
    (fun e => ret (chat_error_marker ++ str_of_exn e)).

(** *** Page handlers *)

Definition goto (p : string) : M unit :=
  modify_ss (set_page (str p)) ;; st_rerun.

Definition main_page : M unit :=
  show (Title ([0x1F3A4%N] ++ str " Voice AI Assistant")) ;;
  s <- get_ss ;;
  match audio_data s with
  | None => modify_ss (set_recorder (Some (in_recorder inp)))
  | Some a => show (AudioPlayer a)
  end ;;
  s <- get_ss ;;
  when (is_some (audio_data s) && click_new_session inp)
    (modify_ss (set_audio_data None) ;;
     modify_ss (set_audio_path None) ;;
     modify_ss (set_transcription []) ;;
     modify_ss (set_messages []) ;;
     st_rerun) ;;
  s <- get_ss ;;
  match audio_data s, recorder s with
  | None, Some (Some rec) =>
      modify_ss (set_audio_data (Some rec)) ;;
      tmp_audio <- named_temporary_file (str ".wav") ;;
      write_file tmp_audio (Bytes rec) ;;
      modify_ss (set_audio_path (Some tmp_audio))
  | _, _ => ret tt
  end ;;
  s <- get_ss ;;
  when (is_some (audio_data s) && negb (truthy (transcription s)))
    (t <- transcribe_audio ;;
     modify_ss (set_transcription t)) ;;
  s <- get_ss ;;
  when (truthy (transcription s))
    (show (Write (transcription s)) ;;
     show (Markdown (str "---")) ;;
     when (click_generate_summary inp) (goto "summary") ;;
     when (click_create_ppt inp) (goto "ppt") ;;
     when (click_chat inp) (goto "chat")).

Definition summary_page : M unit :=
  show (Title ([0x1F4C4%N] ++ str " Executive Summary")) ;;
  when (click_back inp) (goto "main") ;;
  s <- get_ss ;;
  when (negb (truthy (summary s)))
    (generated <- generate_summary ;;
     modify_ss (set_summary generated) ;;
     tmp_file <- named_temporary_file (str ".txt") ;;
     s <- get_ss ;;
     data <- py_encode (summary s) ;;
     write_file tmp_file (Bytes data) ;;
     modify_ss (set_summary_path (Some tmp_file))) ;;
  s <- get_ss ;;
  show (Markdown (summary s)) ;;
  f <- open_rb (summary_path s) ;;
  show (DownloadButton ([0x2B07%N; 0xFE0F%N] ++ str " Download Summary") f
          (str "voice_summary.md") (str "text/markdown")).

Definition ppt_page : M unit :=
  show (Title ([0x1F4CA%N] ++ str " PPT Generator")) ;;
  when (click_back inp) (goto "main") ;;
  show (Subheader (str "Presentation Settings")) ;;
  when (click_form_submit inp)
    (ppt_path <- create_presentation (in_title inp) (in_headings inp) ;;
     modify_ss (set_ppt_path ppt_path)) ;;
  s <- get_ss ;;
  match ppt_path s with
  | Some p =>
      show (Success ([0x2705%N] ++ str " Presentation Ready!")) ;;
      f <- open_rb (Some p) ;;
      show (DownloadButton ([0x2B07%N; 0xFE0F%N] ++ str " Download PowerPoint") f
              (str "voice_analysis.pptx")
              (str "application/vnd.openxmlformats-officedocument.presentationml.presentation"))
  | None => ret tt
  end.

Fixpoint show_history (l : list ChatMessage) : M unit :=
  match l with
  | [] => ret tt
  | message :: rest =>
      show (ChatBubble (role message) (content message)) ;;
      show_history rest
  end.

Definition append_message (who body : pystr) : M unit :=
  modify_ss (fun s =>
    set_messages (messages s ++ [{| role := who; content := body |}]) s).

Definition chat_page : M unit :=
  show (Title ([0x1F4AC%N] ++ str " Voice Analysis Chat")) ;;
  when (click_back inp) (goto "main") ;;
  s <- get_ss ;;
  show_history (messages s) ;;
  match in_chat inp with
  | Some prompt =>
      if truthy prompt then
        append_message role_user prompt ;;
        response <- chat_response prompt ;;
        append_message role_assistant response ;;
        st_rerun
      else ret tt
  | None => ret tt
  end.

(** *** App flow: the dispatch at the end of the script. *)
Definition app_flow : M unit :=
  s <- get_ss ;;
  if pystr_eqb (page s) (str "main") then main_page
  else if pystr_eqb (page s) (str "summary") then summary_page
  else if pystr_eqb (page s) (str "ppt") then ppt_page
  else if pystr_eqb (page s) (str "chat") then chat_page
  else goto "main".

(** One run of the script on a session, with an empty screen. *)
Definition run (s : SessionState) (w : World) : Outcome unit * Machine :=
  app_flow {| ss := s; world := w; ui := [] |}.

End Program.


(** ** Specification-side definitions

    The definitions of this part are not code of the program: they say,
    in terms of the answers of the outside services, what the claims
    expect, so that the theorems can compare the program with them. *)

(** A blank line, in the words of the specification: nothing but white
    space. *)
Definition is_blank (l : pystr) : bool := forallb is_space l.

(** H_nonblank: the non-blank heading lines, in order. *)
Definition nonblank_lines (headings : pystr) : list pystr :=
  filter (fun l => negb (is_blank l)) (split NL headings).

Section DeckSpec.

Variable E : Env.
Variable inp : Inputs.

(** The first exception of the two text assignments of the title
    slide, if any: the title, then the line with the timestamp. *)
Definition title_refused (title : pystr) : option Exn :=
  match shape_set_text E title with
  | Some e => Some e
  | None => shape_set_text E (str "Generated " ++ now inp)
  end.

(** The content slides, when nothing raises in the loop; else the first
    exception, in the order of the code: the heading is assigned, the
    service is called, the bullets are assigned.  [n] counts the calls
    made before the loop. *)
Fixpoint content_slides (n : nat) (transcript : pystr) (hs : list pystr)
  : Exn + list Slide :=
  match hs with
  | [] => inr []
  | h :: rest =>
      match shape_set_text E h with
      | Some e => inl e
      | None =>
          match generate_content E n (slide_prompt h transcript) with
          | inl e => inl e
          | inr t =>
              match shape_set_text E (bullets t) with
              | Some e => inl e
              | None =>
                  match content_slides (S n) transcript rest with
                  | inl e => inl e
                  | inr l => inr (content_slide h t :: l)
                  end
              end
          end
      end
  end.

(** The prompts the loop sends: one per heading, until something
    raises - a heading that is refused (before its call), a call, or
    bullets that are refused (after it). *)
Fixpoint sent_slide_prompts (n : nat) (transcript : pystr) (hs : list pystr)
  : list pystr :=
  match hs with
  | [] => []
  | h :: rest =>
      match shape_set_text E h with
      | Some _ => []
      | None =>
          slide_prompt h transcript ::
          match generate_content E n (slide_prompt h transcript) with
          | inl _ => []
          | inr t =>
              match shape_set_text E (bullets t) with
              | Some _ => []
              | None => sent_slide_prompts (S n) transcript rest
              end
          end
      end
  end.

(** The prompts a call of the exporter sends: none when a text of the
    title slide is refused. *)
Definition sent_deck_prompts (title : pystr) (n : nat) (transcript : pystr)
    (hs : list pystr) : list pystr :=
  match title_refused title with
  | Some _ => []
  | None => sent_slide_prompts n transcript hs
  end.

(** The whole deck, or the first exception of its construction or of
    its saving. *)
Definition deck_build (title headings : pystr) (m : Machine)
  : Exn + list Slide :=
  match title_refused title with
  | Some e => inl e
  | None =>
      match content_slides (length (gen_log (world m))) (transcription (ss m))
              (heading_lines headings) with
      | inl e => inl e
      | inr l =>
          match prs_save E (title_slide inp title :: l) with
          | Some e => inl e
          | None => inr (title_slide inp title :: l)
          end
      end
  end.

(** What an adapter hands back for the answer of the service. *)
Definition adapter_result (marker : pystr) (answer : Exn + pystr) : pystr :=
  match answer with
  | inr t => t
  | inl e => marker ++ str_of_exn e
  end.

End DeckSpec.

(** The machine a run starts from. *)
Definition start (s : SessionState) (w : World) : Machine :=
  {| ss := s; world := w; ui := [] |}.

(** The prompts sent during a computation. *)
Definition prompts_after {A} (r : Outcome A * Machine) : list pystr :=
  gen_log (world (snd r)).

(** The log alternates user / assistant, starting with user (so its
    length is even). *)
Fixpoint alternating (l : list ChatMessage) : bool :=
  match l with
  | [] => true
  | u :: rest =>
      match rest with
      | [] => false
      | a :: rest' =>
          pystr_eqb (role u) role_user && pystr_eqb (role a) role_assistant
          && alternating rest'
      end
  end.

(** The session states the program can be in: the defaults of a new
    session, and what any run of the script leaves behind. *)
Inductive reachable : SessionState -> Prop :=
| reach_defaults : reachable session_defaults
| reach_run E inp s w : reachable s -> reachable (ss (snd (run E inp s w))).

(** The machine once [model.generate_content] was called on [p]. *)
Definition log_prompt (p : pystr) (m : Machine) : Machine :=
  {| ss := ss m;
     world := {| files := files (world m); gen_log := gen_log (world m) ++ [p] |};
     ui := ui m |}.

(** The machine once the prompts [ps] were sent, in this order. *)
Definition log_prompts (ps : list pystr) (m : Machine) : Machine :=
  {| ss := ss m;
     world := {| files := files (world m); gen_log := gen_log (world m) ++ ps |};
     ui := ui m |}.

(** The temporary file a machine would create next. *)
Definition next_tmp (sfx : pystr) (m : Machine) : Path :=
  {| tmp_id := length (files (world m)); suffix := sfx |}.

(** The machine after the creation of one more temporary file. *)
Definition with_new_file (sfx : pystr) (c : FileContent) (m : Machine) : Machine :=
  {| ss := ss m;
     world := {| files := files (world m) ++ [{| file_suffix := sfx; file_data := c |}];
                 gen_log := gen_log (world m) |};
     ui := ui m |}.

(** The machine after one more element was shown. *)
Definition with_shown (e : Element) (m : Machine) : Machine :=
  {| ss := ss m; world := world m; ui := ui m ++ [e] |}.

(** The two messages of one chat submission: the question, then the
    reply of the adapter to the prompt built once the question is in
    the log; [n] counts the calls made before. *)
Definition chat_exchange (E : Env) (s : SessionState) (n : nat) (q : pystr)
  : list ChatMessage :=
  let asked := {| role := role_user; content := q |} in
  [ asked;
    {| role := role_assistant;
       content :=
         adapter_result chat_error_marker
           (generate_content E n
              (chat_prompt (isprintable E) (transcription s)
                 (messages s ++ [asked]) q)) |} ].

(** ** The claims that fail as they are worded *)

(** "Re-invoking a screen handler when its cached result is already
    present must not re-invoke the adapter": no run of [handler] on a
    session whose cache is present sends a prompt. *)
Definition cached_visit_is_silent (handler : Env -> Inputs -> M unit)
    (cached : SessionState -> bool) : Prop :=
  forall E inp s w,
    cached s = true -> prompts_after (handler E inp (start s w)) = gen_log w.

(** "The chat prompt includes the last 5 messages of the history,
    verbatim": the content of each of them stands in the prompt as it
    is. *)
Definition history_verbatim_as_stated (pr : N -> bool) (transcript : pystr)
    (history : list ChatMessage) (question : pystr) : Prop :=
  forall msg,
    In msg (last5 history) ->
    exists before after,
      chat_prompt pr transcript history question = before ++ content msg ++ after.

(** [p] stands at the start of [s]; [p] stands somewhere in [s]. *)
Fixpoint starts_with (p s : pystr) : bool :=
  match p, s with
  | [], _ => true
  | _ :: _, [] => false
  | a :: p', b :: s' => (a =? b)%N && starts_with p' s'
  end.

Fixpoint occurs (p s : pystr) : bool :=
  starts_with p s
  || match s with
     | [] => false
     | _ :: s' => occurs p s'
     end.

(** "For every title and every headings input, the Deck Exporter
    produces a presentation with exactly 1 + |H_nonblank| slides", for
    one call. *)
Definition deck_export_as_stated (E : Env) (inp : Inputs)
    (title headings : pystr) (m : Machine) : Prop :=
  exists p m' slides,
    create_presentation E inp title headings m = (Ret (Some p), m')
    /\ lookup_file (world m') p = Some (Deck slides)
    /\ length slides = 1 + length (nonblank_lines headings).

(** "Given a transcript, visiting the summary screen produces non-empty
    summary text, writes it UTF-8-encoded to a new temporary file, and
    offers it for download as a [.md] file", for one visit. *)
Definition summary_visit_as_stated (E : Env) (inp : Inputs)
    (s : SessionState) (w : World) : Prop :=
  let m' := snd (summary_page E inp (start s w)) in
  truthy (summary (ss m')) = true
  /\ exists p data,
       summary_path (ss m') = Some p
       /\ lookup_file w p = None
       /\ encode (summary (ss m')) = Some data
       /\ lookup_file (world m') p = Some (Bytes data)
       /\ exists label,
            In (DownloadButton label (Bytes data) (str "voice_summary.md")
                  (str "text/markdown")) (ui m').

(** ** Sample sessions *)

(** The characters lxml refuses in a text that python-pptx hands over:
    U+FFFE, U+FFFF and the surrogates. *)
Definition xml_incompatible (c : N) : bool :=
  ((c =? 0xFFFE) || (c =? 0xFFFF) || ((0xD800 <=? c) && (c <=? 0xDFFF)))%N.

Definition lxml_error : Exn :=
  {| exn_class := str "ValueError";
     exn_msg := str "All strings must be XML compatible: Unicode or ASCII, no NULL bytes or control characters" |}.

Definition lxml_set_text (s : pystr) : option Exn :=
  if existsb xml_incompatible s then Some lxml_error else None.

Definition hello_segments : list Segment :=
  [ {| start_2f := str "0.00"; text := str "Hello world" |} ].

(** Services that answer. *)
Definition sample_env : Env := {|
  isprintable := fun _ => true;
  whisperx_align := fun _ => inr hello_segments;
  generate_content := fun _ _ => inr (str "- Greeting");
  shape_set_text := lxml_set_text;
  prs_save := fun _ => None
|}.

(** A generative service that answers with the empty text. *)
Definition silent_env : Env := {|
  isprintable := fun _ => true;
  whisperx_align := fun _ => inr hello_segments;
  generate_content := fun _ _ => inr [];
  shape_set_text := lxml_set_text;
  prs_save := fun _ => None
|}.

Definition corrupt_audio : Exn :=
  {| exn_class := str "RuntimeError"; exn_msg := str "Failed to load audio" |}.

(** A transcription library that fails on the recording. *)
Definition failing_whisper_env : Env := {|
  isprintable := fun _ => true;
  whisperx_align := fun _ => inl corrupt_audio;
  generate_content := fun _ _ => inr (str "- Greeting");
  shape_set_text := lxml_set_text;
  prs_save := fun _ => None
|}.

(** A run in which the user touches nothing. *)
Definition idle : Inputs := {|
  in_recorder := None;
  click_new_session := false;
  click_generate_summary := false;
  click_create_ppt := false;
  click_chat := false;
  click_back := false;
  in_title := str "Voice Analysis Report";
  in_headings := lines [str "Introduction"; str "Key Findings"];
  click_form_submit := false;
  in_chat := None;
  now := str "03 Nov 2026 10:31"
|}.

Definition with_click_new_session (i : Inputs) : Inputs :=
  {| in_recorder := in_recorder i; click_new_session := true;
     click_generate_summary := click_generate_summary i;
     click_create_ppt := click_create_ppt i; click_chat := click_chat i;
     click_back := click_back i; in_title := in_title i;
     in_headings := in_headings i; click_form_submit := click_form_submit i;
     in_chat := in_chat i; now := now i |}.

Definition with_form_submit (i : Inputs) : Inputs :=
  {| in_recorder := in_recorder i; click_new_session := click_new_session i;
     click_generate_summary := click_generate_summary i;
     click_create_ppt := click_create_ppt i; click_chat := click_chat i;
     click_back := click_back i; in_title := in_title i;
     in_headings := in_headings i; click_form_submit := true;
     in_chat := in_chat i; now := now i |}.

Definition with_recording (a : Audio) (i : Inputs) : Inputs :=
  {| in_recorder := Some a; click_new_session := click_new_session i;
     click_generate_summary := click_generate_summary i;
     click_create_ppt := click_create_ppt i; click_chat := click_chat i;
     click_back := click_back i; in_title := in_title i;
     in_headings := in_headings i; click_form_submit := click_form_submit i;
     in_chat := in_chat i; now := now i |}.

Definition with_question (q : pystr) (i : Inputs) : Inputs :=
  {| in_recorder := in_recorder i; click_new_session := click_new_session i;
     click_generate_summary := click_generate_summary i;
     click_create_ppt := click_create_ppt i; click_chat := click_chat i;
     click_back := click_back i; in_title := in_title i;
     in_headings := in_headings i; click_form_submit := click_form_submit i;
     in_chat := Some q; now := now i |}.

(** A log whose last reply has two lines. *)
Definition two_line_log : list ChatMessage :=
  [ {| role := role_user; content := str "Who speaks?" |};
    {| role := role_assistant; content := lines [str "Two people."; str "Anna and Ben."] |} ].

Definition empty_world : World := {| files := []; gen_log := [] |}.

Definition memo : Audio := [x52; x49; x46; x46].

(** A session after one recording was transcribed, summarised, made
    into a deck and discussed. *)
Definition first_memo_txt : Path := {| tmp_id := 1; suffix := str ".txt" |}.
Definition first_memo_pptx : Path := {| tmp_id := 2; suffix := str ".pptx" |}.

Definition used_session : SessionState := {|
  page := str "main";
  transcription := str "[0.00s] Hello world";
  summary := str "# Summary of the first memo";
  audio_data := Some memo;
  audio_path := Some {| tmp_id := 0; suffix := str ".wav" |};
  messages := [ {| role := role_user; content := str "Who speaks?" |};
                {| role := role_assistant; content := str "One speaker." |} ];
  ppt_path := Some first_memo_pptx;
  summary_path := Some first_memo_txt;
  ppt_title := [];
  ppt_headings := [];
  recorder := Some (Some memo)
|}.

Definition used_world : World := {|
  files := [ {| file_suffix := str ".wav"; file_data := Bytes memo |};
             {| file_suffix := str ".txt"; file_data := Bytes [x23] |};
             {| file_suffix := str ".pptx"; file_data := Deck [] |} ];
  gen_log := []
|}.

(** A session with a transcript and nothing derived from it yet. *)
Definition transcribed_session : SessionState :=
  set_page (str "summary")
    (set_transcription (str "[0.00s] Hello world")
       (set_audio_data (Some memo) session_defaults)).

(** The session after the four assignments of the "New Session" button. *)
Definition after_new_session (s : SessionState) : SessionState :=
  set_messages [] (set_transcription [] (set_audio_path None (set_audio_data None s))).

(** Successive runs of the script on one session, one per entry of
    [inputs]; the result is that of the last run. *)
Fixpoint replay (E : Env) (inputs : list Inputs) (s : SessionState) (w : World)
    (last : Outcome unit * Machine) : Outcome unit * Machine :=
  match inputs with
  | [] => last
  | i :: rest =>
      let r := run E i s w in
      replay E rest (ss (snd r)) (world (snd r)) r
  end.

Definition session_runs (E : Env) (inputs : list Inputs) (s : SessionState)
    (w : World) : Outcome unit * Machine :=
  replay E inputs s w (Ret tt, start s w).

Definition with_click_generate_summary (i : Inputs) : Inputs :=
  {| in_recorder := in_recorder i; click_new_session := click_new_session i;
     click_generate_summary := true;
     click_create_ppt := click_create_ppt i; click_chat := click_chat i;
     click_back := click_back i; in_title := in_title i;
     in_headings := in_headings i; click_form_submit := click_form_submit i;
     in_chat := in_chat i; now := now i |}.

(** A second recording, and services that hear something else in it. *)
Definition second_memo : Audio := [x52; x49; x46; x46; x00].

Definition second_env : Env := {|
  isprintable := fun _ => true;
  whisperx_align := fun _ =>
    inr [ {| start_2f := str "0.00"; text := str "Budget review" |} ];
  generate_content := fun _ _ => inr (str "# Summary of the second memo");
  shape_set_text := lxml_set_text;
  prs_save := fun _ => None
|}.

(** ** Frame conditions on computations *)

(** [stable R c]: whatever the outcome of [c], the session before and
    the session after are related by [R]. *)
Definition stable (R : SessionState -> SessionState -> Prop) {A} (c : M A) : Prop :=
  forall m, R (ss m) (ss (snd (c m))).

(** The chat log is kept as it is, or emptied. *)
Definition log_kept_or_emptied (s s' : SessionState) : Prop :=
  messages s' = messages s \/ messages s' = [].

(** A character that [repr] prints as it is, between single quotes. *)
Definition plain_char (pr : N -> bool) (c : N) : bool :=
  (negb (c =? QUOTE) && negb (c =? BACKSLASH) && (32 <=? c) && negb (c =? 0x7F)
   && ((c <? 0x7F) || pr c))%N.

(** ** Further specification-side definitions *)

(** A text that is not empty and neither starts nor ends with white
    space. *)
Definition trimmed (h : pystr) : bool :=
  match h, rev h with
  | c :: _, d :: _ => negb (is_space c) && negb (is_space d)
  | _, _ => false
  end.

(** The lines of the answer of the service that become bullets. *)
Definition bullet_points (response_text : pystr) : list pystr :=
  filter (fun point => negb (is_blank point)) (split NL response_text).

(** The four screens of the router. *)
Definition valid_page (p : pystr) : bool :=
  pystr_eqb p (str "main") || pystr_eqb p (str "summary")
  || pystr_eqb p (str "ppt") || pystr_eqb p (str "chat").

(** What holds of a session between two runs: the screen is one of the
    four; away from home there is a transcript; a transcript comes with
    its recording; a recording comes with its file path, and conversely. *)
Definition session_ok (s : SessionState) : bool :=
  valid_page (page s)
  && (pystr_eqb (page s) (str "main") || truthy (transcription s))
  && (negb (truthy (transcription s)) || is_some (audio_data s))
  && Bool.eqb (is_some (audio_data s)) (is_some (audio_path s)).

(** What the summary, deck and chat screens leave alone: the recording
    and its transcript; and they stay or go home. *)
Definition derived_screen_frame (s s' : SessionState) : Prop :=
  transcription s' = transcription s
  /\ audio_data s' = audio_data s
  /\ audio_path s' = audio_path s
  /\ (page s' = page s \/ page s' = str "main").

(** A session with a recording that is not transcribed yet. *)
Definition recorded_session : SessionState :=
  set_audio_path (Some {| tmp_id := 0; suffix := str ".wav" |})
    (set_audio_data (Some memo) session_defaults).

(** A recording without speech. *)
Definition silent_audio_env : Env := {|
  isprintable := fun _ => true;
  whisperx_align := fun _ => inr [];
  generate_content := fun _ _ => inr (str "- Greeting");
  shape_set_text := lxml_set_text;
  prs_save := fun _ => None
|}.

(** The elements of the deck screen. *)
Definition deck_title : Element := Title ([0x1F4CA%N] ++ str " PPT Generator").
Definition deck_form : Element := Subheader (str "Presentation Settings").
Definition deck_ready : Element := Success ([0x2705%N] ++ str " Presentation Ready!").
Definition deck_download (data : FileContent) : Element :=
  DownloadButton ([0x2B07%N; 0xFE0F%N] ++ str " Download PowerPoint") data
    (str "voice_analysis.pptx")
    (str "application/vnd.openxmlformats-officedocument.presentationml.presentation").


Definition quota_error : Exn :=
  {| exn_class := str "ResourceExhausted"; exn_msg := str "429 quota exceeded" |}.

(** A generative service that refuses every call. *)
Definition failing_gen_env : Env := {|
  isprintable := fun _ => true;
  whisperx_align := fun _ => inr hello_segments;
  generate_content := fun _ _ => inl quota_error;
  shape_set_text := lxml_set_text;
  prs_save := fun _ => None
|}.

(** A run in which the user does nothing: no button, no form, no
    question. *)
Definition no_action (i : Inputs) : bool :=
  negb (click_new_session i) && negb (click_generate_summary i)
  && negb (click_create_ppt i) && negb (click_chat i)
  && negb (click_back i) && negb (click_form_submit i)
  && negb (is_some (in_chat i)).

(** A session whose current screen has what it shows: at home a
    transcribed recording, on the summary screen a cached summary with
    its file, on the deck screen no deck or one whose file exists. *)
Definition settled (s : SessionState) (w : World) : bool :=
  if pystr_eqb (page s) (str "main") then
    is_some (audio_data s) && truthy (transcription s)
  else if pystr_eqb (page s) (str "summary") then
    truthy (summary s)
    && match summary_path s with
       | Some p => is_some (lookup_file w p)
       | None => false
       end
  else if pystr_eqb (page s) (str "ppt") then
    match ppt_path s with
    | Some p => is_some (lookup_file w p)
    | None => true
    end
  else pystr_eqb (page s) (str "chat").

(** The elements of the home screen. *)
Definition home_title : Element := Title ([0x1F3A4%N] ++ str " Voice AI Assistant").
Definition home_rule : Element := Markdown (str "---").

Definition with_click_back (i : Inputs) : Inputs :=
  {| in_recorder := in_recorder i; click_new_session := click_new_session i;
     click_generate_summary := click_generate_summary i;
     click_create_ppt := click_create_ppt i; click_chat := click_chat i;
     click_back := true; in_title := in_title i;
     in_headings := in_headings i; click_form_submit := click_form_submit i;
     in_chat := in_chat i; now := now i |}.
(** * Properties *)

Arguments str : simpl never.
Arguments summary_prompt : simpl never.
Arguments slide_prompt : simpl never.
Arguments chat_prompt : simpl never.

(** ** Small facts used throughout *)

Example split_ex : split NL (str "Intro
Conclusion") = [str "Intro"; str "Conclusion"].
Proof. reflexivity. Qed.
Example strip_ex : strip (str "  a b  ") = str "a b".
Proof. reflexivity. Qed.
Example repr_ex : repr_str (fun _ => true) (str "it's") = [34%N] ++ str "it's" ++ [34%N].
Proof. reflexivity. Qed.
Example enc_ex : encode [0x274C%N] = Some [xe2; x9d; x8c].
Proof. reflexivity. Qed.

Lemma pystr_eqb_refl (a : pystr) : pystr_eqb a a = true.
Proof. unfold pystr_eqb. destruct (list_eq_dec N.eq_dec a a); congruence. Qed.

Lemma pystr_eqb_neq (a b : pystr) : a <> b -> pystr_eqb a b = false.
Proof. intro H. unfold pystr_eqb. destruct (list_eq_dec N.eq_dec a b); congruence. Qed.

Lemma pystr_eqb_true (a b : pystr) : pystr_eqb a b = true -> a = b.
Proof. unfold pystr_eqb. destruct (list_eq_dec N.eq_dec a b); congruence. Qed.

Lemma truthy_false (s : pystr) : truthy s = false -> s = [].
Proof. destruct s; simpl; congruence. Qed.

Lemma truthy_app_l (a b : pystr) : truthy a = true -> truthy (a ++ b) = true.
Proof. destruct a; simpl; congruence. Qed.

(** ** Session/Navigation Controller: the router *)

Section Router.

Variable E : Env.
Variable inp : Inputs.

Lemma app_flow_main s w u :
  page s = str "main" ->
  app_flow E inp {| ss := s; world := w; ui := u |}
  = main_page E inp {| ss := s; world := w; ui := u |}.
Proof.
  intro H. unfold app_flow, bind, get_ss. simpl. rewrite H.
  rewrite pystr_eqb_refl. reflexivity.
Qed.

Lemma app_flow_invalid s w u :
  page s <> str "main" -> page s <> str "summary" ->
  page s <> str "ppt" -> page s <> str "chat" ->
  app_flow E inp {| ss := s; world := w; ui := u |}
  = (Rerun, {| ss := set_page (str "main") s; world := w; ui := u |}).
Proof.
  intros H1 H2 H3 H4. unfold app_flow, bind, get_ss. simpl.
  rewrite !pystr_eqb_neq by assumption. reflexivity.
Qed.

End Router.

(** C9. Whatever the current-screen identifier is, if it is none of
    "main", "summary", "ppt", "chat", the run shows nothing, calls no
    service, sets the screen to "main" and asks for a rerun; and the
    rerun, whatever its inputs, is handled by the home screen. *)
Theorem invalid_page_redirects_home (E : Env) (inp : Inputs)
    (s : SessionState) (w : World) :
  page s <> str "main" -> page s <> str "summary" ->
  page s <> str "ppt" -> page s <> str "chat" ->
  run E inp s w
  = (Rerun, {| ss := set_page (str "main") s; world := w; ui := [] |})
  /\ forall E' inp' w',
       run E' inp' (set_page (str "main") s) w'
       = main_page E' inp' {| ss := set_page (str "main") s; world := w'; ui := [] |}.
Proof.
  intros H1 H2 H3 H4. split.
  - unfold run. now apply app_flow_invalid.
  - intros E' inp' w'. unfold run. now apply app_flow_main.
Qed.

(** ** Generative Text Client Adapter *)

Section Adapter.

Variable E : Env.

Lemma model_generate_text_eq p m :
  model_generate_text E p m
  = (match generate_content E (length (gen_log (world m))) p with
     | inr t => Ret t
     | inl e => Raise e
     end, log_prompt p m).
Proof.
  unfold model_generate_text, log_prompt.
  now destruct (generate_content E (length (gen_log (world m))) p).
Qed.

Lemma generate_summary_eq m :
  generate_summary E m
  = (Ret (adapter_result summary_error_marker
            (generate_content E (length (gen_log (world m)))
               (summary_prompt (transcription (ss m))))),
     log_prompt (summary_prompt (transcription (ss m))) m).
Proof.
  unfold generate_summary, try_except, bind, get_ss.
  rewrite model_generate_text_eq.
  now destruct (generate_content E _ _).
Qed.

Lemma chat_response_eq q m :
  chat_response E q m
  = (Ret (adapter_result chat_error_marker
            (generate_content E (length (gen_log (world m)))
               (chat_prompt (isprintable E) (transcription (ss m))
                  (messages (ss m)) q))),
     log_prompt (chat_prompt (isprintable E) (transcription (ss m))
                   (messages (ss m)) q) m).
Proof.
  unfold chat_response, try_except, bind, get_ss.
  rewrite model_generate_text_eq.
  now destruct (generate_content E _ _).
Qed.

End Adapter.

(** C6. Summary generation and the chat response never raise: whatever
    the service does on the prompt, each returns a string, which is the
    completion text when the call succeeds and the marker followed by
    the text of the exception when it fails. *)
Theorem adapters_return_error_strings (E : Env) (m : Machine) (q : pystr) :
  let n := length (gen_log (world m)) in
  let sp := summary_prompt (transcription (ss m)) in
  let cp := chat_prompt (isprintable E) (transcription (ss m)) (messages (ss m)) q in
  generate_summary E m
  = (Ret match generate_content E n sp with
         | inr completion => completion
         | inl e => [0x274C%N] ++ str " Error generating summary: " ++ str_of_exn e
         end, log_prompt sp m)
  /\ chat_response E q m
  = (Ret match generate_content E n cp with
         | inr completion => completion
         | inl e => [0x26A0%N; 0xFE0F%N] ++ str " Error: " ++ str_of_exn e
         end, log_prompt cp m).
Proof.
  intros n sp cp. split.
  - rewrite generate_summary_eq. fold n sp.
    now destruct (generate_content E n sp).
  - rewrite chat_response_eq. fold n cp.
    now destruct (generate_content E n cp).
Qed.

(** ** Deck Exporter *)

Lemma replace_nth_last {A} (l : list A) (x y : A) :
  replace_nth (length l) x (l ++ [y]) = l ++ [x].
Proof. induction l as [|a l IH]; simpl; [reflexivity | now rewrite IH]. Qed.

Lemma nth_error_last {A} (l : list A) (x : A) :
  nth_error (l ++ [x]) (length l) = Some x.
Proof. induction l as [|a l IH]; simpl; [reflexivity | exact IH]. Qed.

Lemma log_prompts_nil m : log_prompts [] m = m.
Proof.
  destruct m as [s [f g] u]. unfold log_prompts. simpl. now rewrite app_nil_r.
Qed.

Lemma log_prompts_cons p ps m :
  log_prompts ps (log_prompt p m) = log_prompts (p :: ps) m.
Proof.
  unfold log_prompts, log_prompt. simpl. now rewrite <- app_assoc.
Qed.

Lemma lookup_new_file sfx c m :
  lookup_file (world (with_new_file sfx c m)) (next_tmp sfx m) = Some c.
Proof.
  unfold lookup_file, with_new_file, next_tmp. simpl.
  rewrite nth_error_last. simpl. now rewrite pystr_eqb_refl.
Qed.

Lemma lookup_file_last l g sfx c :
  lookup_file {| files := l ++ [{| file_suffix := sfx; file_data := c |}];
                 gen_log := g |}
    {| tmp_id := length l; suffix := sfx |} = Some c.
Proof.
  unfold lookup_file. simpl. rewrite nth_error_last. simpl.
  now rewrite pystr_eqb_refl.
Qed.

(** The new name is not the name of a file that existed before. *)
Lemma next_tmp_fresh sfx m : lookup_file (world m) (next_tmp sfx m) = None.
Proof.
  unfold lookup_file, next_tmp. simpl.
  replace (nth_error (files (world m)) (length (files (world m)))) with (@None TmpFile).
  - reflexivity.
  - symmetry. apply nth_error_None. lia.
Qed.

Section Deck.

Variable E : Env.
Variable inp : Inputs.

Lemma set_shape_text_eq t m :
  set_shape_text E t m
  = (match shape_set_text E t with Some e => Raise e | None => Ret tt end, m).
Proof. unfold set_shape_text. now destruct (shape_set_text E t). Qed.

Lemma add_content_slides_eq hs : forall prs m,
  add_content_slides E hs prs m
  = (match content_slides E (length (gen_log (world m))) (transcription (ss m)) hs with
     | inr l => Ret (prs ++ l)
     | inl e => Raise e
     end,
     log_prompts (sent_slide_prompts E (length (gen_log (world m)))
                    (transcription (ss m)) hs) m).
Proof.
  induction hs as [|h rest IH]; intros prs m.
  - simpl. unfold ret. now rewrite log_prompts_nil, app_nil_r.
  - cbn [add_content_slides content_slides sent_slide_prompts].
    unfold bind at 1. rewrite set_shape_text_eq.
    destruct (shape_set_text E h) as [e|]; [now rewrite log_prompts_nil|].
    unfold bind at 1. unfold get_ss at 1. unfold bind at 1.
    rewrite model_generate_text_eq.
    destruct (generate_content E (length (gen_log (world m)))
                (slide_prompt h (transcription (ss m)))) as [e|t].
    + reflexivity.
    + unfold bind at 1. rewrite set_shape_text_eq.
      destruct (shape_set_text E (bullets t)) as [e|]; [reflexivity|].
      rewrite IH. rewrite log_prompts_cons.
      replace (length (gen_log (world (log_prompt (slide_prompt h (transcription (ss m))) m))))
        with (S (length (gen_log (world m))))
        by (unfold log_prompt; simpl; rewrite length_app; simpl; lia).
      change (transcription (ss (log_prompt (slide_prompt h (transcription (ss m))) m)))
        with (transcription (ss m)).
      destruct (content_slides E (S (length (gen_log (world m))))
                  (transcription (ss m)) rest) as [e|l].
      * reflexivity.
      * now rewrite <- app_assoc.
Qed.

Lemma content_slides_titles n T hs l :
  content_slides E n T hs = inr l ->
  map slide_title l = hs /\ Forall (fun sl => layout sl = 1) l.
Proof.
  revert n l. induction hs as [|h rest IH]; intros n l; simpl.
  - intros [= <-]. now split.
  - destruct (shape_set_text E h); [discriminate|].
    destruct (generate_content E n (slide_prompt h T)) as [e|t]; [discriminate|].
    destruct (shape_set_text E (bullets t)); [discriminate|].
    destruct (content_slides E (S n) T rest) as [e|l'] eqn:Hrest; [discriminate|].
    intros [= <-]. destruct (IH _ _ Hrest) as [Ht Hl]. simpl. split.
    + now rewrite Ht.
    + constructor; [reflexivity | exact Hl].
Qed.

(** What [create_presentation] does, case by case. *)
Lemma create_presentation_eq title headings m :
  let sent := log_prompts (sent_slide_prompts E (length (gen_log (world m)))
                             (transcription (ss m)) (heading_lines headings)) m in
  create_presentation E inp title headings m
  = match title_refused E inp title with
    | Some e =>
        (Ret None, with_shown (ErrorBox (str "PPT Error: " ++ str_of_exn e)) m)
    | None =>
        match content_slides E (length (gen_log (world m))) (transcription (ss m))
                (heading_lines headings) with
        | inl e =>
            (Ret None, with_shown (ErrorBox (str "PPT Error: " ++ str_of_exn e)) sent)
        | inr l =>
            match prs_save E (title_slide inp title :: l) with
            | Some e =>
                (Ret None,
                 with_shown (ErrorBox (str "PPT Error: " ++ str_of_exn e))
                   (with_new_file (str ".pptx") (Bytes []) sent))
            | None =>
                (Ret (Some (next_tmp (str ".pptx") m)),
                 with_new_file (str ".pptx") (Deck (title_slide inp title :: l)) sent)
            end
        end
    end.
Proof.
  intro sent. unfold create_presentation, try_except, title_refused.
  unfold bind at 1. rewrite set_shape_text_eq.
  destruct (shape_set_text E title) as [e|]; [reflexivity|].
  unfold bind at 1. rewrite set_shape_text_eq.
  destruct (shape_set_text E (str "Generated " ++ now inp)) as [e|]; [reflexivity|].
  unfold bind at 1. rewrite add_content_slides_eq. fold sent.
  destruct (content_slides E (length (gen_log (world m))) (transcription (ss m))
              (heading_lines headings)) as [e|l].
  - reflexivity.
  - unfold presentation_save. cbn [app].
    destruct (prs_save E (title_slide inp title :: l)) as [e|] eqn:Hsave.
    + unfold bind, named_temporary_file, get_world, put_world, ret, raise, show,
        with_shown, with_new_file. simpl. reflexivity.
    + unfold bind, named_temporary_file, get_world, put_world, ret, write_file,
        with_new_file, next_tmp. simpl.
      rewrite replace_nth_last. reflexivity.
Qed.

End Deck.

(** *** Blank lines *)

Lemma lstrip_all_space s : forallb is_space s = true -> lstrip s = [].
Proof.
  induction s as [|c t IH]; simpl; [reflexivity|].
  intro H. apply andb_true_iff in H as [Hc Ht]. rewrite Hc. now apply IH.
Qed.

Lemma lstrip_some_char s :
  forallb is_space s = false ->
  exists c t, lstrip s = c :: t /\ is_space c = false.
Proof.
  induction s as [|c t IH]; simpl; [discriminate|].
  destruct (is_space c) eqn:Hc; simpl.
  - exact IH.
  - intros _. now exists c, t.
Qed.

Lemma forallb_rev {A} (f : A -> bool) (l : list A) :
  forallb f (rev l) = forallb f l.
Proof.
  induction l as [|a l IH]; simpl; [reflexivity|].
  rewrite forallb_app, IH. simpl. rewrite andb_true_r. apply andb_comm.
Qed.

(** A line survives the filter of the program exactly when it is not
    blank. *)
Lemma strip_truthy (h : pystr) : truthy (strip h) = negb (is_blank h).
Proof.
  unfold is_blank, strip, rstrip.
  destruct (forallb is_space h) eqn:Hall; simpl.
  - now rewrite (lstrip_all_space _ Hall).
  - destruct (lstrip_some_char _ Hall) as (c & t & Hl & Hc). rewrite Hl.
    assert (Hrev : forallb is_space (rev (c :: t)) = false).
    { rewrite forallb_rev. simpl. now rewrite Hc. }
    destruct (lstrip_some_char _ Hrev) as (c' & t' & Hl' & _). rewrite Hl'.
    simpl. now destruct (rev t').
Qed.

Lemma heading_lines_nonblank (headings : pystr) :
  heading_lines headings = map strip (nonblank_lines headings).
Proof.
  unfold heading_lines, nonblank_lines. f_equal.
  apply filter_ext. intro h. apply strip_truthy.
Qed.

(** *** The two outcomes of the exporter *)

Section DeckOutcome.

Variable E : Env.
Variable inp : Inputs.

Lemma deck_build_slides title headings m slides :
  deck_build E inp title headings m = inr slides ->
  exists l,
    slides = title_slide inp title :: l
    /\ map slide_title l = heading_lines headings
    /\ Forall (fun sl => layout sl = 1) l.
Proof.
  unfold deck_build.
  destruct (title_refused E inp title); [discriminate|].
  destruct (content_slides E _ _ _) as [e|l] eqn:Hc; [discriminate|].
  destruct (prs_save E _); [discriminate|].
  intros [= <-]. exists l. destruct (content_slides_titles _ _ _ _ _ Hc). auto.
Qed.

Lemma create_presentation_ok title headings m slides :
  deck_build E inp title headings m = inr slides ->
  exists m',
    create_presentation E inp title headings m
    = (Ret (Some (next_tmp (str ".pptx") m)), m')
    /\ lookup_file (world m') (next_tmp (str ".pptx") m) = Some (Deck slides)
    /\ ui m' = ui m /\ ss m' = ss m.
Proof.
  unfold deck_build. rewrite create_presentation_eq.
  destruct (title_refused E inp title); [discriminate|].
  destruct (content_slides E _ _ _) as [e|l]; [discriminate|].
  destruct (prs_save E _); [discriminate|].
  intros [= <-]. eexists. split; [reflexivity|]. split; [|now split].
  apply (lookup_new_file (str ".pptx") (Deck (title_slide inp title :: l))
           (log_prompts _ m)).
Qed.

Lemma create_presentation_failed title headings m e :
  deck_build E inp title headings m = inl e ->
  exists m',
    create_presentation E inp title headings m = (Ret None, m')
    /\ ui m' = ui m ++ [ErrorBox (str "PPT Error: " ++ str_of_exn e)]
    /\ ss m' = ss m.
Proof.
  unfold deck_build. rewrite create_presentation_eq.
  destruct (title_refused E inp title) as [e'|].
  { intros [= <-]. eexists. split; [reflexivity|]. now split. }
  destruct (content_slides E _ _ _) as [e'|l].
  - intros [= <-]. eexists. split; [reflexivity|]. now split.
  - destruct (prs_save E _) as [e'|]; [|discriminate].
    intros [= <-]. eexists. split; [reflexivity|]. now split.
Qed.

End DeckOutcome.

(** With healthy services, a title that holds U+FFFF is refused by
    python-pptx when it is assigned to the title shape: the exporter
    returns no path and no deck exists. *)
Lemma refused_title_gives_no_deck :
  ~ deck_export_as_stated sample_env idle (str "Report " ++ [0xFFFF%N])
      (str "Introduction") (start transcribed_session empty_world).
Proof.
  intros (p & m' & slides & Hrun & _). vm_compute in Hrun. discriminate.
Qed.

(** With healthy services, a heading that holds U+FFFF is refused when
    it is assigned to the title of its slide, before its prompt is sent:
    of three headings the first alone reaches the service, and no path
    is returned. *)
Example refused_heading_stops_the_loop :
  let r := create_presentation sample_env idle (str "Report")
             (lines [str "A"; str "B" ++ [0xFFFF%N]; str "C"])
             (start transcribed_session empty_world) in
  fst r = Ret None
  /\ length (prompts_after r) = 1
  /\ files (world (snd r)) = [].
Proof. vm_compute. repeat split. Qed.

(** A refused title: nothing is sent, nothing is written. *)
Example refused_title_sends_nothing :
  let r := create_presentation sample_env idle (str "Report " ++ [0xFFFF%N])
             (str "A") (start transcribed_session empty_world) in
  fst r = Ret None
  /\ prompts_after r = []
  /\ files (world (snd r)) = []
  /\ ui (snd r) = [ErrorBox (str "PPT Error: " ++ exn_msg lxml_error)].
Proof. vm_compute. repeat split. Qed.

(** C4, amended.  The headings the exporter keeps are the non-blank
    lines, each stripped, in order.  When nothing raises while the deck
    is built and saved - python-pptx accepts the title, the timestamp
    line, every heading and every bullet text, every call of the
    service answers, the save succeeds -, the exporter returns the path
    of a saved deck of exactly 1 + |H_nonblank| slides: first the title
    slide, carrying the title and the generation timestamp, then one
    content slide per non-blank heading line, titled by it, in order.
    When something raises, it returns no path. *)
Theorem deck_has_one_slide_per_heading (E : Env) (inp : Inputs)
    (title headings : pystr) (m : Machine) :
  heading_lines headings = map strip (nonblank_lines headings)
  /\ match deck_build E inp title headings m with
     | inr slides =>
         exists p m',
           create_presentation E inp title headings m = (Ret (Some p), m')
           /\ lookup_file (world m') p = Some (Deck slides)
           /\ length slides = 1 + length (nonblank_lines headings)
           /\ hd_error slides
              = Some {| layout := 0; slide_title := title;
                        slide_body := str "Generated " ++ now inp |}
           /\ map slide_title (tl slides) = map strip (nonblank_lines headings)
           /\ Forall (fun sl => layout sl = 1) (tl slides)
     | inl _ => fst (create_presentation E inp title headings m) = Ret None
     end.
Proof.
  split; [apply heading_lines_nonblank|].
  destruct (deck_build E inp title headings m) as [e|slides] eqn:Hb.
  - destruct (create_presentation_failed _ _ _ _ _ _ Hb) as (m' & -> & _).
    reflexivity.
  - destruct (create_presentation_ok _ _ _ _ _ _ Hb) as (m' & Hrun & Hfile & _).
    destruct (deck_build_slides _ _ _ _ _ _ Hb) as (l & -> & Ht & Hl).
    exists (next_tmp (str ".pptx") m), m'.
    rewrite heading_lines_nonblank in Ht.
    repeat split; auto.
    simpl. f_equal. rewrite <- (length_map slide_title), Ht.
    now rewrite length_map.
Qed.

(** C5. The exporter never raises.  If anything raises while the deck
    is built or saved - a text that python-pptx refuses, a call of the
    generative service, the saving -, it shows that error and returns no
    path; and a path it returns names a file that holds the whole deck,
    title slide and one slide per heading, built without any exception. *)
Theorem deck_error_returns_no_path (E : Env) (inp : Inputs)
    (title headings : pystr) (m : Machine) :
  match deck_build E inp title headings m with
  | inl e =>
      exists m',
        create_presentation E inp title headings m = (Ret None, m')
        /\ ui m' = ui m ++ [ErrorBox (str "PPT Error: " ++ str_of_exn e)]
  | inr _ => True
  end
  /\ match create_presentation E inp title headings m with
     | (Ret (Some p), m') =>
         exists slides,
           deck_build E inp title headings m = inr slides
           /\ lookup_file (world m') p = Some (Deck slides)
           /\ length slides = 1 + length (heading_lines headings)
           /\ ui m' = ui m
     | (Ret None, m') => exists e, deck_build E inp title headings m = inl e
     | (Raise _, _) => False
     | (Rerun, _) => False
     end.
Proof.
  destruct (deck_build E inp title headings m) as [e|slides] eqn:Hb.
  - destruct (create_presentation_failed _ _ _ _ _ _ Hb) as (m' & Hrun & Hui & _).
    split.
    + now exists m'.
    + rewrite Hrun. now exists e.
  - destruct (create_presentation_ok _ _ _ _ _ _ Hb) as (m' & Hrun & Hfile & Hui & _).
    destruct (deck_build_slides _ _ _ _ _ _ Hb) as (l & -> & Ht & _).
    split; [exact I|]. rewrite Hrun.
    exists (title_slide inp title :: l). repeat split; auto.
    simpl. now rewrite <- Ht, length_map.
Qed.

(** ** Screen handlers *)

Ltac run_steps :=
  unfold bind, when, goto, ret, raise, st_rerun, get_ss, modify_ss,
    get_world, put_world, show, named_temporary_file, write_file,
    open_rb, py_encode, start, prompts_after.

Ltac go := repeat (progress (run_steps; simpl)).

Section Handlers.

Variable E : Env.
Variable inp : Inputs.

Lemma show_history_eq l : forall m,
  show_history l m
  = (Ret tt, {| ss := ss m; world := world m;
                ui := ui m ++ map (fun msg => ChatBubble (role msg) (content msg)) l |}).
Proof.
  induction l as [|msg rest IH]; intro m; simpl.
  - unfold ret. destruct m. simpl. now rewrite app_nil_r.
  - unfold bind, show. rewrite IH. simpl. now rewrite <- app_assoc.
Qed.

Lemma summary_page_prompts s w :
  prompts_after (summary_page E inp (start s w))
  = gen_log w ++
    (if negb (click_back inp) && negb (truthy (summary s))
     then [summary_prompt (transcription s)] else []).
Proof.
  unfold summary_page. go.
  destruct (click_back inp); go; [now rewrite app_nil_r|].
  destruct (truthy (summary s)); go.
  - rewrite app_nil_r. destruct (summary_path s) as [p|]; go; [|reflexivity].
    destruct (lookup_file w p); reflexivity.
  - rewrite generate_summary_eq. go.
    destruct (encode _); go; [|reflexivity].
    destruct (lookup_file _ _); reflexivity.
Qed.

Lemma ppt_page_prompts s w :
  prompts_after (ppt_page E inp (start s w))
  = gen_log w ++
    (if negb (click_back inp) && click_form_submit inp
     then sent_deck_prompts E inp (in_title inp) (length (gen_log w))
            (transcription s) (heading_lines (in_headings inp))
     else []).
Proof.
  unfold ppt_page, sent_deck_prompts. go.
  destruct (click_back inp); go; [now rewrite app_nil_r|].
  destruct (click_form_submit inp); go.
  - rewrite create_presentation_eq. go.
    destruct (title_refused E inp (in_title inp)); go; [now rewrite app_nil_r|].
    destruct (content_slides E _ _ _) as [e|l]; go; [reflexivity|].
    destruct (prs_save E _); go; [reflexivity|].
    destruct (lookup_file _ _); reflexivity.
  - rewrite app_nil_r. destruct (ppt_path s) as [p|]; go; [|reflexivity].
    destruct (lookup_file w p); reflexivity.
Qed.

Lemma chat_page_prompts s w :
  prompts_after (chat_page E inp (start s w))
  = gen_log w ++
    match in_chat inp with
    | Some q =>
        if negb (click_back inp) && truthy q
        then [chat_prompt (isprintable E) (transcription s)
                (messages s ++ [{| role := role_user; content := q |}]) q]
        else []
    | None => []
    end.
Proof.
  unfold chat_page, append_message. go.
  destruct (click_back inp); go.
  - destruct (in_chat inp); now rewrite app_nil_r.
  - rewrite show_history_eq. go.
    destruct (in_chat inp) as [q|]; go; [|now rewrite app_nil_r].
    destruct (truthy q); go; [|now rewrite app_nil_r].
    rewrite chat_response_eq. reflexivity.
Qed.

Lemma chat_page_messages s w :
  messages (ss (snd (chat_page E inp (start s w))))
  = messages s ++
    match in_chat inp with
    | Some q =>
        if negb (click_back inp) && truthy q
        then chat_exchange E s (length (gen_log w)) q
        else []
    | None => []
    end.
Proof.
  unfold chat_page, append_message. go.
  destruct (click_back inp); go.
  - destruct (in_chat inp); now rewrite app_nil_r.
  - rewrite show_history_eq. go.
    destruct (in_chat inp) as [q|]; go; [|now rewrite app_nil_r].
    destruct (truthy q); go; [|now rewrite app_nil_r].
    rewrite chat_response_eq. go. now rewrite <- app_assoc.
Qed.

End Handlers.

(** ** Which visits call the generative service *)

(** The deck handler builds a new deck, and calls the service, on every
    form submission: a cached deck path does not stop it. *)
Lemma deck_regenerated_despite_cache :
  ~ cached_visit_is_silent ppt_page (fun s => is_some (ppt_path s)).
Proof.
  intro H.
  specialize (H sample_env (with_form_submit idle)
                (set_page (str "ppt") used_session) used_world eq_refl).
  rewrite ppt_page_prompts in H.
  apply (f_equal (@length pystr)) in H. vm_compute in H. discriminate.
Qed.

(** The chat handler has no cached reply to give: each question is a
    new call. *)
Lemma chat_calls_for_each_question :
  ~ cached_visit_is_silent chat_page
      (fun s => match messages s with [] => false | _ :: _ => true end).
Proof.
  intro H.
  specialize (H sample_env (with_question (str "And then?") idle)
                (set_page (str "chat") used_session) used_world eq_refl).
  rewrite chat_page_prompts in H.
  apply (f_equal (@length pystr)) in H. vm_compute in H. discriminate.
Qed.

(** C2, amended.  The prompts a visit sends are determined as follows.
    Summary screen: the summary prompt, once, exactly when Back is not
    pressed and the cached summary is empty; with a cached summary,
    nothing.  Deck screen: nothing unless the form is submitted; on a
    submission, cached deck or not, nothing when python-pptx refuses a
    text of the title slide, else one slide prompt per non-blank
    heading, in order, until something raises: a heading that
    python-pptx refuses (before its prompt is sent), a call of the
    service, or bullets that python-pptx refuses.  Chat screen: nothing
    unless a non-empty question is submitted; then one chat prompt. *)
Theorem generation_follows_cache_or_submission (E : Env) (inp : Inputs)
    (s : SessionState) (w : World) :
  prompts_after (summary_page E inp (start s w))
  = gen_log w ++
    (if negb (click_back inp) && negb (truthy (summary s))
     then [summary_prompt (transcription s)] else [])
  /\ prompts_after (ppt_page E inp (start s w))
     = gen_log w ++
       (if negb (click_back inp) && click_form_submit inp
        then sent_deck_prompts E inp (in_title inp) (length (gen_log w))
               (transcription s) (heading_lines (in_headings inp))
        else [])
  /\ prompts_after (chat_page E inp (start s w))
     = gen_log w ++
       match in_chat inp with
       | Some q =>
           if negb (click_back inp) && truthy q
           then [chat_prompt (isprintable E) (transcription s)
                   (messages s ++ [{| role := role_user; content := q |}]) q]
           else []
       | None => []
       end.
Proof.
  split; [apply summary_page_prompts|].
  split; [apply ppt_page_prompts | apply chat_page_prompts].
Qed.

(** ** Summary screen and Summary Exporter *)

Section SummaryScreen.

Variable E : Env.
Variable inp : Inputs.

(** A visit with an empty cache: generate, store, export, offer. *)
Lemma summary_page_generates s w :
  click_back inp = false -> summary s = [] ->
  let prompt := summary_prompt (transcription s) in
  let generated :=
    adapter_result summary_error_marker
      (generate_content E (length (gen_log w)) prompt) in
  let tmp_file := {| tmp_id := length (files w); suffix := str ".txt" |} in
  summary_page E inp (start s w)
  = match encode generated with
    | Some data =>
        (Ret tt,
         {| ss := set_summary_path (Some tmp_file) (set_summary generated s);
            world := {| files := files w ++ [{| file_suffix := str ".txt";
                                                file_data := Bytes data |}];
                        gen_log := gen_log w ++ [prompt] |};
            ui := [ Title ([0x1F4C4%N] ++ str " Executive Summary");
                    Markdown generated;
                    DownloadButton ([0x2B07%N; 0xFE0F%N] ++ str " Download Summary")
                      (Bytes data) (str "voice_summary.md") (str "text/markdown") ] |})
    | None =>
        (Raise UnicodeEncodeError,
         {| ss := set_summary generated s;
            world := {| files := files w ++ [{| file_suffix := str ".txt";
                                                file_data := Bytes [] |}];
                        gen_log := gen_log w ++ [prompt] |};
            ui := [ Title ([0x1F4C4%N] ++ str " Executive Summary") ] |})
    end.
Proof.
  intros Hback Hempty prompt generated tmp_file.
  unfold summary_page. go. rewrite Hback. go. rewrite Hempty. go.
  rewrite generate_summary_eq. go. fold prompt generated.
  destruct (encode generated) as [data|]; go; [|reflexivity].
  rewrite replace_nth_last, lookup_file_last. reflexivity.
Qed.

(** A visit with a cached summary shows it again and generates nothing. *)
Lemma summary_page_cached s w p data :
  click_back inp = false -> truthy (summary s) = true ->
  summary_path s = Some p -> lookup_file w p = Some data ->
  summary_page E inp (start s w)
  = (Ret tt,
     {| ss := s; world := w;
        ui := [ Title ([0x1F4C4%N] ++ str " Executive Summary");
                Markdown (summary s);
                DownloadButton ([0x2B07%N; 0xFE0F%N] ++ str " Download Summary")
                  data (str "voice_summary.md") (str "text/markdown") ] |}).
Proof.
  intros Hback Hcached Hpath Hfile.
  unfold summary_page. go. rewrite Hback. go. rewrite Hcached. go.
  rewrite Hpath. go. rewrite Hfile. reflexivity.
Qed.

End SummaryScreen.

(** With a transcript but a service that answers with the empty text,
    the summary the visit stores is empty. *)
Lemma empty_completion_gives_empty_summary :
  truthy (transcription transcribed_session) = true
  /\ summary transcribed_session = []
  /\ click_back idle = false
  /\ ~ summary_visit_as_stated silent_env idle transcribed_session empty_world.
Proof.
  repeat split. intros [Hnonempty _].
  rewrite summary_page_generates in Hnonempty by reflexivity.
  vm_compute in Hnonempty. discriminate.
Qed.

(** C8, amended.  On a visit of the summary screen with an empty cached
    summary (Back not pressed), the text the adapter returns becomes the
    summary: it is non-empty exactly when the service raised or its
    completion is non-empty.  When that text has a UTF-8 encoding, the
    visit ends normally, the encoding is the content of a temporary file
    that did not exist before (suffix [.txt]), whose path the session
    keeps, and the screen shows the summary and a download button that
    offers these bytes as [voice_summary.md], type [text/markdown]. *)
Theorem summary_visit_exports (E : Env) (inp : Inputs) (s : SessionState)
    (w : World) (data : list byte) :
  let generated :=
    adapter_result summary_error_marker
      (generate_content E (length (gen_log w)) (summary_prompt (transcription s))) in
  click_back inp = false -> summary s = [] ->
  encode generated = Some data ->
  let r := summary_page E inp (start s w) in
  let tmp_file := {| tmp_id := length (files w); suffix := str ".txt" |} in
  fst r = Ret tt
  /\ summary (ss (snd r)) = generated
  /\ truthy generated
     = match generate_content E (length (gen_log w))
               (summary_prompt (transcription s)) with
       | inr completion => truthy completion
       | inl _ => true
       end
  /\ summary_path (ss (snd r)) = Some tmp_file
  /\ lookup_file w tmp_file = None
  /\ lookup_file (world (snd r)) tmp_file = Some (Bytes data)
  /\ ui (snd r)
     = [ Title ([0x1F4C4%N] ++ str " Executive Summary");
         Markdown generated;
         DownloadButton ([0x2B07%N; 0xFE0F%N] ++ str " Download Summary")
           (Bytes data) (str "voice_summary.md") (str "text/markdown") ].
Proof.
  intros generated Hback Hempty Henc r tmp_file. subst r.
  rewrite summary_page_generates by assumption. fold generated. rewrite Henc.
  simpl. repeat split.
  - unfold generated. now destruct (generate_content E _ _).
  - apply (next_tmp_fresh (str ".txt") (start s w)).
  - apply lookup_file_last.
Qed.

Lemma summary_visit_exports_witness :
  click_back idle = false /\ summary transcribed_session = []
  /\ encode (str "- Greeting") = Some (map byte_of (str "- Greeting"))
  /\ summary (ss (snd (summary_page sample_env idle
                         (start transcribed_session empty_world))))
     = str "- Greeting".
Proof.
  split; [reflexivity|]. split; [reflexivity|]. split; [reflexivity|].
  exact (proj1 (proj2 (summary_visit_exports sample_env idle transcribed_session
                         empty_world (map byte_of (str "- Greeting"))
                         eq_refl eq_refl eq_refl))).
Defined.

(** ** Home screen *)

Section HomeScreen.

Variable E : Env.
Variable inp : Inputs.

(** The "New Session" button: four fields are assigned, then the script
    reruns; no other field changes. *)
Lemma main_page_new_session s w a :
  audio_data s = Some a -> click_new_session inp = true ->
  main_page E inp (start s w)
  = (Rerun,
     {| ss := after_new_session s; world := w;
        ui := [ Title ([0x1F3A4%N] ++ str " Voice AI Assistant"); AudioPlayer a ] |}).
Proof.
  intros Ha Hclick. unfold main_page. go. rewrite Ha. go.
  rewrite Ha. go. rewrite Hclick. go. reflexivity.
Qed.

Lemma after_new_session_fields s :
  let s' := after_new_session s in
  audio_data s' = None /\ audio_path s' = None
  /\ transcription s' = [] /\ messages s' = []
  /\ summary s' = summary s /\ summary_path s' = summary_path s
  /\ ppt_path s' = ppt_path s /\ page s' = page s.
Proof. repeat split. Qed.

(** A recording is there, no transcript yet, and WhisperX raises: the
    exception leaves [main_page]; nothing was shown about it. *)
Lemma main_page_transcription_raises s w a e :
  audio_data s = Some a -> click_new_session inp = false ->
  transcription s = [] -> whisperx_align E (audio_path s) = inl e ->
  main_page E inp (start s w)
  = (Raise e,
     {| ss := s; world := w;
        ui := [ Title ([0x1F3A4%N] ++ str " Voice AI Assistant"); AudioPlayer a ] |}).
Proof.
  intros Ha Hclick Ht Hw. unfold main_page, transcribe_audio. go.
  rewrite Ha. go. rewrite Ha. go. rewrite Hclick. go. rewrite Ha. go.
  rewrite Ha, Ht. go. rewrite Hw. reflexivity.
Qed.

End HomeScreen.

(** C1 (what the code does).  On a session that holds a recording, its
    transcript, a chat log, a summary and a deck, the "New Session"
    button empties the recording, its path, the transcript and the log,
    and leaves the summary text, the summary file path and the deck file
    path as they were. *)
Example new_session_keeps_derived_artifacts :
  let r := run sample_env (with_click_new_session idle) used_session used_world in
  fst r = Rerun
  /\ audio_data (ss (snd r)) = None
  /\ audio_path (ss (snd r)) = None
  /\ transcription (ss (snd r)) = transcription session_defaults
  /\ messages (ss (snd r)) = messages session_defaults
  /\ summary (ss (snd r)) = str "# Summary of the first memo"
  /\ summary (ss (snd r)) <> summary session_defaults
  /\ summary_path (ss (snd r)) = Some first_memo_txt
  /\ ppt_path (ss (snd r)) = Some first_memo_pptx.
Proof.
  vm_compute. repeat split. discriminate.
Qed.

(** The staleness at work: new session, new recording with another
    transcript, "Generate Summary", and the summary screen shows the
    summary of the first recording without asking the service. *)
Example stale_summary_shown_for_new_recording :
  let r := session_runs second_env
             [ with_click_new_session idle;
               with_recording second_memo idle;
               with_click_generate_summary idle;
               idle ]
             used_session used_world in
  fst r = Ret tt
  /\ transcription (ss (snd r)) = str "[0.00s] Budget review"
  /\ In (Markdown (str "# Summary of the first memo")) (ui (snd r))
  /\ gen_log (world (snd r)) = [].
Proof. vm_compute. repeat split. right. now left. Qed.

(** C7 (what the code does).  A new session, a recording, and a
    transcription library that raises: the run of the script ends with
    that exception uncaught, no error element was shown, and the session
    keeps the recording without a transcript, so the next run raises
    again. *)
Example transcription_error_escapes :
  let r := run failing_whisper_env (with_recording memo idle)
             session_defaults empty_world in
  fst r = Raise corrupt_audio
  /\ ui (snd r) = [ Title ([0x1F3A4%N] ++ str " Voice AI Assistant") ]
  /\ audio_data (ss (snd r)) = Some memo
  /\ transcription (ss (snd r)) = []
  /\ fst (run failing_whisper_env idle (ss (snd r)) (world (snd r)))
     = Raise corrupt_audio.
Proof. vm_compute. repeat split. Qed.

(** ** Frame rules *)

Section Stable.

Variable R : SessionState -> SessionState -> Prop.
Hypothesis R_refl : forall s, R s s.
Hypothesis R_trans : forall s1 s2 s3, R s1 s2 -> R s2 s3 -> R s1 s3.

Lemma stable_same_session {A} (c : M A) :
  (forall m, ss (snd (c m)) = ss m) -> stable R c.
Proof. intros H m. rewrite H. apply R_refl. Qed.

Lemma stable_ret {A} (a : A) : stable R (ret a).
Proof. intro m. apply R_refl. Qed.

Lemma stable_raise {A} (e : Exn) : stable R (@raise A e).
Proof. intro m. apply R_refl. Qed.

Lemma stable_rerun {A} : stable R (@st_rerun A).
Proof. intro m. apply R_refl. Qed.

Lemma stable_get_ss : stable R get_ss.
Proof. intro m. apply R_refl. Qed.

Lemma stable_get_world : stable R get_world.
Proof. intro m. apply R_refl. Qed.

Lemma stable_put_world w : stable R (put_world w).
Proof. intro m. apply R_refl. Qed.

Lemma stable_show e : stable R (show e).
Proof. intro m. apply R_refl. Qed.

Lemma stable_modify_ss f : (forall s, R s (f s)) -> stable R (modify_ss f).
Proof. intros H m. apply H. Qed.

Lemma stable_bind {A B} (c : M A) (k : A -> M B) :
  stable R c -> (forall a, stable R (k a)) -> stable R (bind c k).
Proof.
  intros Hc Hk m. unfold bind. specialize (Hc m).
  destruct (c m) as [[a|e|] m']; simpl in *; try assumption.
  eapply R_trans; [exact Hc | apply Hk].
Qed.

Lemma stable_try_except {A} (c : M A) (h : Exn -> M A) :
  stable R c -> (forall e, stable R (h e)) -> stable R (try_except c h).
Proof.
  intros Hc Hh m. unfold try_except. specialize (Hc m).
  destruct (c m) as [[a|e|] m']; simpl in *; try assumption.
  eapply R_trans; [exact Hc | apply Hh].
Qed.

Lemma stable_when b c : stable R c -> stable R (when b c).
Proof. intro H. destruct b; simpl; [exact H | apply stable_ret]. Qed.

Lemma stable_named_temporary_file sfx : stable R (named_temporary_file sfx).
Proof. now apply stable_same_session. Qed.

Lemma stable_write_file p c : stable R (write_file p c).
Proof. now apply stable_same_session. Qed.

Lemma stable_open_rb p : stable R (open_rb p).
Proof.
  apply stable_same_session. intro m. unfold open_rb.
  destruct p as [p|]; [|reflexivity].
  unfold bind, get_world. simpl. now destruct (lookup_file (world m) p).
Qed.

Lemma stable_py_encode s : stable R (py_encode s).
Proof. unfold py_encode. destruct (encode s); [apply stable_ret | apply stable_raise]. Qed.

Lemma stable_show_history l : stable R (show_history l).
Proof. apply stable_same_session. intro m. now rewrite show_history_eq. Qed.

Variable E : Env.
Variable inp : Inputs.

Lemma stable_generate_summary : stable R (generate_summary E).
Proof. apply stable_same_session. intro m. now rewrite generate_summary_eq. Qed.

Lemma stable_chat_response q : stable R (chat_response E q).
Proof. apply stable_same_session. intro m. now rewrite chat_response_eq. Qed.

Lemma stable_transcribe_audio : stable R (transcribe_audio E).
Proof.
  apply stable_same_session. intro m. unfold transcribe_audio, bind, get_ss.
  now destruct (whisperx_align E (audio_path (ss m))).
Qed.

Lemma stable_create_presentation title headings :
  stable R (create_presentation E inp title headings).
Proof.
  apply stable_same_session. intro m. rewrite create_presentation_eq.
  destruct (title_refused E inp title); [reflexivity|].
  destruct (content_slides E _ _ _); [reflexivity|].
  now destruct (prs_save E _).
Qed.

End Stable.

Create HintDb frame.
#[local] Hint Resolve stable_ret stable_raise stable_rerun stable_get_ss
  stable_get_world stable_put_world stable_show stable_named_temporary_file
  stable_write_file stable_open_rb stable_py_encode stable_show_history
  stable_generate_summary stable_chat_response stable_transcribe_audio
  stable_create_presentation : frame.

(** One step of a frame proof: split the computation at its head.
    [trans] is the proof that the relation is transitive. *)
Ltac frame_step trans :=
  match goal with
  | |- stable _ (bind _ _) => apply stable_bind; [exact trans | | intro]
  | |- stable _ (when _ _) => apply stable_when
  | |- stable _ (modify_ss _) => apply stable_modify_ss; intro
  | |- stable _ (goto _) => unfold goto
  | |- stable _ (append_message _ _) => unfold append_message
  | |- stable _ (match ?x with _ => _ end) => destruct x
  | |- stable _ _ => solve [auto with frame]
  end.

Ltac frame trans := repeat frame_step trans.

(** *** The chat log under each handler *)

Section ChatLog.

Variable E : Env.
Variable inp : Inputs.

Lemma log_kept_or_emptied_refl s : log_kept_or_emptied s s.
Proof. now left. Qed.

Lemma log_kept_or_emptied_trans s1 s2 s3 :
  log_kept_or_emptied s1 s2 -> log_kept_or_emptied s2 s3 ->
  log_kept_or_emptied s1 s3.
Proof.
  unfold log_kept_or_emptied. intros [H12|H12] [H23|H23]; rewrite H23; auto.
Qed.

#[local] Hint Resolve log_kept_or_emptied_refl : frame.

Lemma main_page_log : stable log_kept_or_emptied (main_page E inp).
Proof.
  unfold main_page. frame log_kept_or_emptied_trans; try (now left); try (now right).
Qed.

Lemma summary_page_log : stable log_kept_or_emptied (summary_page E inp).
Proof.
  unfold summary_page. frame log_kept_or_emptied_trans; now left.
Qed.

Lemma ppt_page_log : stable log_kept_or_emptied (ppt_page E inp).
Proof.
  unfold ppt_page. frame log_kept_or_emptied_trans; now left.
Qed.

End ChatLog.

(** *** The alternation invariant *)

Lemma list_pair_ind {A} (P : list A -> Prop) :
  P [] -> (forall x, P [x]) ->
  (forall x y l, P l -> P (x :: y :: l)) ->
  forall l, P l.
Proof.
  intros H0 H1 H2 l.
  enough (H : P l /\ forall x, P (x :: l)) by apply H.
  induction l as [|y l [IHl IHx]]; split; auto.
Qed.

Lemma alternating_app (l l' : list ChatMessage) :
  alternating l = true -> alternating l' = true -> alternating (l ++ l') = true.
Proof.
  intros Hl Hl'. revert Hl.
  induction l as [| x | x y l IH] using list_pair_ind; simpl.
  - intros _. exact Hl'.
  - discriminate.
  - intro H. apply andb_true_iff in H as [Hxy Hrest].
    rewrite Hxy. simpl. now apply IH.
Qed.

Lemma alternating_even (l : list ChatMessage) :
  alternating l = true -> Nat.even (length l) = true.
Proof.
  induction l as [| x | x y l IH] using list_pair_ind; simpl.
  - reflexivity.
  - discriminate.
  - intro H. apply andb_true_iff in H as [_ Hrest]. now apply IH.
Qed.

Lemma alternating_exchange E s n q : alternating (chat_exchange E s n q) = true.
Proof.
  unfold chat_exchange. cbn [alternating role]. now rewrite !pystr_eqb_refl.
Qed.

Lemma alternating_kept_or_emptied s s' :
  log_kept_or_emptied s s' ->
  alternating (messages s) = true -> alternating (messages s') = true.
Proof. intros [->| ->]; auto. Qed.

Lemma chat_page_alternating E inp s w :
  alternating (messages s) = true ->
  alternating (messages (ss (snd (chat_page E inp (start s w))))) = true.
Proof.
  intro H. rewrite chat_page_messages. apply alternating_app; [exact H|].
  destruct (in_chat inp) as [q|]; [|reflexivity].
  destruct (negb (click_back inp) && truthy q); [|reflexivity].
  apply alternating_exchange.
Qed.

(** Every run of the script keeps the invariant. *)
Lemma run_alternating E inp s w :
  alternating (messages s) = true ->
  alternating (messages (ss (snd (run E inp s w)))) = true.
Proof.
  intro H. unfold run, app_flow, bind, get_ss. simpl.
  destruct (pystr_eqb (page s) (str "main")).
  { exact (alternating_kept_or_emptied _ _ (main_page_log E inp (start s w)) H). }
  destruct (pystr_eqb (page s) (str "summary")).
  { exact (alternating_kept_or_emptied _ _ (summary_page_log E inp (start s w)) H). }
  destruct (pystr_eqb (page s) (str "ppt")).
  { exact (alternating_kept_or_emptied _ _ (ppt_page_log E inp (start s w)) H). }
  destruct (pystr_eqb (page s) (str "chat")).
  { now apply chat_page_alternating. }
  exact H.
Qed.

Lemma reachable_alternating s : reachable s -> alternating (messages s) = true.
Proof.
  induction 1 as [|E inp s w _ IH]; [reflexivity|].
  now apply run_alternating.
Qed.

(** C10. In any session the program can reach, a run of the chat
    handler appends to the log exactly the two messages of a completed
    submission - the user's question, then an assistant message whose
    content is the reply of the service or the error string of the
    adapter - and nothing when no question is submitted; after it the
    log alternates user/assistant from a user message on and its length
    is even. *)
Theorem chat_log_alternates (E : Env) (inp : Inputs) (s : SessionState)
    (w : World) :
  reachable s ->
  let after := messages (ss (snd (chat_page E inp (start s w)))) in
  after
  = messages s ++
    match in_chat inp with
    | Some q =>
        if negb (click_back inp) && truthy q
        then [ {| role := str "user"; content := q |};
               {| role := str "assistant";
                  content :=
                    match generate_content E (length (gen_log w))
                            (chat_prompt (isprintable E) (transcription s)
                               (messages s ++ [{| role := str "user"; content := q |}])
                               q) with
                    | inr reply => reply
                    | inl e => chat_error_marker ++ str_of_exn e
                    end |} ]
        else []
    | None => []
    end
  /\ alternating after = true
  /\ Nat.even (length after) = true.
Proof.
  intros Hreach after.
  assert (Halt : alternating after = true)
    by (apply chat_page_alternating, reachable_alternating, Hreach).
  split; [|split; [exact Halt | now apply alternating_even]].
  unfold after. rewrite chat_page_messages. reflexivity.
Qed.

Lemma chat_log_alternates_witness :
  reachable session_defaults
  /\ messages (ss (snd (chat_page sample_env (with_question (str "Who speaks?") idle)
                          (start session_defaults empty_world))))
     = [ {| role := str "user"; content := str "Who speaks?" |};
         {| role := str "assistant"; content := str "- Greeting" |} ].
Proof.
  split; [exact reach_defaults|].
  exact (proj1 (chat_log_alternates sample_env (with_question (str "Who speaks?") idle)
                  session_defaults empty_world reach_defaults)).
Defined.

(** ** Prompt Builder: the history window of the chat prompt *)

Lemma last5_split {A} (l : list A) : l = firstn (length l - 5) l ++ last5 l.
Proof. unfold last5. now rewrite firstn_skipn. Qed.

Lemma last5_length {A} (l : list A) : length (last5 l) = Nat.min 5 (length l).
Proof. unfold last5. rewrite length_skipn. lia. Qed.

Lemma last5_short {A} (l : list A) : length l <= 5 -> last5 l = l.
Proof.
  intro H. unfold last5. replace (length l - 5) with 0 by lia. reflexivity.
Qed.

Lemma last5_idem {A} (l : list A) : last5 (last5 l) = last5 l.
Proof. apply last5_short. rewrite last5_length. lia. Qed.

Lemma last5_app_five {A} (older : list A) (a b c d e : A) :
  last5 (older ++ [a; b; c; d; e]) = [a; b; c; d; e].
Proof.
  unfold last5. rewrite length_app. simpl length.
  replace (length older + 5 - 5) with (length older) by lia.
  rewrite skipn_app, skipn_all, Nat.sub_diag. reflexivity.
Qed.

Lemma chat_prompt_history pr T h q :
  exists before after,
    chat_prompt pr T h q
    = before ++ (str "    HISTORY: " ++ str_messages pr (last5 h)) ++ after.
Proof.
  unfold chat_prompt, lines. cbn [join].
  eexists ([] ++ [NL] ++ str "    ROLE: Voice Analysis Assistant" ++ [NL]
           ++ (str "    CONTEXT: " ++ T) ++ [NL]).
  eexists. rewrite <- !app_assoc. reflexivity.
Qed.

(** Text without quotes, backslashes or control characters is printed
    by [repr] letter for letter. *)
Lemma repr_char_plain pr c : plain_char pr c = true -> repr_char pr QUOTE c = [c].
Proof.
  unfold plain_char, repr_char, QUOTE, BACKSLASH.
  intro H. repeat (apply andb_true_iff in H as [H ?]).
  repeat match goal with
         | H : negb _ = true |- _ => apply negb_true_iff in H
         end.
  match goal with H : (32 <=? c)%N = true |- _ => apply N.leb_le in H end.
  assert (H9 : (c =? 9)%N = false) by (apply N.eqb_neq; lia).
  assert (H10 : (c =? 10)%N = false) by (apply N.eqb_neq; lia).
  assert (H13 : (c =? 13)%N = false) by (apply N.eqb_neq; lia).
  assert (H32 : (c <? 32)%N = false) by (apply N.ltb_ge; lia).
  repeat match goal with
         | H : _ = false |- _ => rewrite H; clear H
         end.
  cbn [orb].
  destruct (c <? 127)%N; [reflexivity|].
  match goal with H : (false || pr c) = true |- _ => cbn [orb] in H; rewrite H end.
  reflexivity.
Qed.

Lemma plain_has_no_quote pr s :
  forallb (plain_char pr) s = true -> contains QUOTE s = false.
Proof.
  unfold contains. induction s as [|c t IH]; [reflexivity|].
  cbn [existsb forallb]. intro H. apply andb_true_iff in H as [Hc Ht].
  rewrite (IH Ht), orb_false_r.
  unfold plain_char in Hc. repeat (apply andb_true_iff in Hc as [Hc ?]).
  apply negb_true_iff in Hc. rewrite N.eqb_sym. exact Hc.
Qed.

Lemma flat_map_plain pr s :
  forallb (plain_char pr) s = true -> flat_map (repr_char pr QUOTE) s = s.
Proof.
  induction s as [|c t IH]; [reflexivity|].
  cbn [flat_map forallb]. intro H. apply andb_true_iff in H as [Hc Ht].
  rewrite (repr_char_plain pr c Hc), (IH Ht). reflexivity.
Qed.

Lemma repr_str_plain pr s :
  forallb (plain_char pr) s = true -> repr_str pr s = [QUOTE] ++ s ++ [QUOTE].
Proof.
  intro H. unfold repr_str, repr_quote.
  rewrite (plain_has_no_quote pr s H). cbn [andb].
  now rewrite (flat_map_plain pr s H).
Qed.

Lemma starts_with_app p rest : starts_with p (p ++ rest) = true.
Proof.
  induction p as [|a p IH]; [reflexivity|]. cbn [starts_with app].
  now rewrite N.eqb_refl, IH.
Qed.

Lemma occurs_app before p after : occurs p (before ++ p ++ after) = true.
Proof.
  induction before as [|b before IH].
  - cbn [app]. destruct p as [|a p]; [now destruct after|].
    cbn [occurs app]. change (a :: p ++ after) with ((a :: p) ++ after).
    now rewrite starts_with_app.
  - cbn [app occurs]. rewrite IH. apply orb_true_r.
Qed.

(** A reply of two lines is printed with its line break escaped: the
    reply, as it is, stands nowhere in the prompt. *)
Lemma line_break_is_not_verbatim :
  ~ history_verbatim_as_stated (fun _ => true) (str "[0.00s] Hello world")
      two_line_log (str "And then?").
Proof.
  intro H.
  destruct (H {| role := role_assistant;
                 content := lines [str "Two people."; str "Anna and Ben."] |})
    as (before & after & Heq).
  - right. now left.
  - apply (f_equal (occurs (lines [str "Two people."; str "Anna and Ben."]))) in Heq.
    rewrite occurs_app in Heq. vm_compute in Heq. discriminate.
Qed.

Lemma join_in (sep : pystr) (l : list pystr) (x : pystr) :
  In x l -> exists before after, join sep l = before ++ x ++ after.
Proof.
  induction l as [|y rest IH]; [intros []|]. intros [->|Hin].
  - cbn [join]. destruct rest as [|z rest'].
    + exists [], []. now rewrite app_nil_r.
    + now exists [], (sep ++ join sep (z :: rest')).
  - destruct (IH Hin) as (before & after & Heq).
    cbn [join]. destruct rest as [|z rest']; [destruct Hin|].
    exists (y ++ sep ++ before), after. rewrite Heq. now rewrite <- !app_assoc.
Qed.

Lemma repr_message_plain pr msg :
  forallb (plain_char pr) (role msg) = true ->
  forallb (plain_char pr) (content msg) = true ->
  repr_message pr msg
  = str "{'role': '" ++ role msg ++ str "', 'content': '" ++ content msg ++ str "'}".
Proof.
  intros Hrole Hcontent. unfold repr_message.
  rewrite (repr_str_plain pr _ Hrole), (repr_str_plain pr _ Hcontent).
  unfold QUOTE. rewrite <- !app_assoc. reflexivity.
Qed.

(** C3, amended.  Let [recent] be the last five messages of the history
    (all of it when it has fewer).  The history is some older messages
    followed by [recent].  The prompt has one HISTORY line, which prints
    the list [recent] as Python prints a list of dictionaries: message
    by message in order, each as
    [{'role': repr(role), 'content': repr(content)}], where [repr]
    escapes quotes, backslashes, line breaks and unprintable characters.
    A message of [recent] whose role and content have none of these
    stands in the prompt letter for letter, as
    [{'role': '<role>', 'content': '<content>'}].  The prompt is the one
    that [recent] alone would give, so that whatever precedes five
    messages leaves it unchanged; and it is the prompt [chat_response]
    sends to the service, for the log of the session. *)
Theorem chat_prompt_keeps_last_five (E : Env) (pr : N -> bool)
    (transcript : pystr) (history : list ChatMessage) (question : pystr)
    (m : Machine) :
  let recent := last5 history in
  (exists older, history = older ++ recent)
  /\ length recent = Nat.min 5 (length history)
  /\ (exists before after,
        chat_prompt pr transcript history question
        = before
          ++ (str "    HISTORY: "
              ++ (str "["
                  ++ join (str ", ")
                       (map (fun msg =>
                               str "{'role': " ++ repr_str pr (role msg)
                               ++ str ", 'content': " ++ repr_str pr (content msg)
                               ++ str "}")
                          recent)
                  ++ str "]"))
          ++ after)
  /\ (forall msg,
        In msg recent ->
        forallb (plain_char pr) (role msg) = true ->
        forallb (plain_char pr) (content msg) = true ->
        exists before after,
          chat_prompt pr transcript history question
          = before
            ++ (str "{'role': '" ++ role msg ++ str "', 'content': '"
                ++ content msg ++ str "'}")
            ++ after)
  /\ chat_prompt pr transcript history question
     = chat_prompt pr transcript recent question
  /\ (forall older a b c d e,
        chat_prompt pr transcript (older ++ [a; b; c; d; e]) question
        = chat_prompt pr transcript [a; b; c; d; e] question)
  /\ prompts_after (chat_response E question m)
     = gen_log (world m)
       ++ [chat_prompt (isprintable E) (transcription (ss m))
             (messages (ss m)) question].
Proof.
  intro recent. split; [|split; [|split; [|split; [|split; [|split]]]]].
  - eexists. apply last5_split.
  - apply last5_length.
  - apply chat_prompt_history.
  - intros msg Hin Hrole Hcontent.
    destruct (chat_prompt_history pr transcript history question)
      as (before & after & Heq).
    destruct (join_in (str ", ") (map (repr_message pr) recent) (repr_message pr msg))
      as (b & a & Hjoin); [now apply in_map|].
    rewrite Heq. unfold str_messages. fold recent. rewrite Hjoin.
    rewrite (repr_message_plain pr msg Hrole Hcontent).
    exists (before ++ str "    HISTORY: " ++ str "[" ++ b), (a ++ str "]" ++ after).
    now rewrite <- !app_assoc.
  - unfold chat_prompt, recent. now rewrite last5_idem.
  - intros older a b c d e. unfold chat_prompt.
    rewrite last5_app_five. reflexivity.
  - rewrite chat_response_eq. reflexivity.
Qed.

Lemma chat_prompt_keeps_last_five_witness :
  let asked := {| role := str "user"; content := str "Who speaks?" |} in
  In asked (last5 two_line_log)
  /\ forallb (plain_char (fun _ => true)) (role asked) = true
  /\ forallb (plain_char (fun _ => true)) (content asked) = true
  /\ exists before after,
       chat_prompt (fun _ => true) (str "[0.00s] Hello world") two_line_log
         (str "And then?")
       = before ++ str "{'role': 'user', 'content': 'Who speaks?'}" ++ after.
Proof.
  intro asked.
  assert (Hin : In asked (last5 two_line_log)) by (now left).
  refine (conj Hin (conj eq_refl (conj eq_refl _))).
  exact (proj1 (proj2 (proj2 (proj2
           (chat_prompt_keeps_last_five sample_env (fun _ => true)
              (str "[0.00s] Hello world") two_line_log (str "And then?")
              (start session_defaults empty_world)))))
           asked Hin eq_refl eq_refl).
Defined.

Lemma invalid_page_redirects_home_witness :
  let s := set_page (str "settings") session_defaults in
  page s <> str "main" /\ page s <> str "summary"
  /\ page s <> str "ppt" /\ page s <> str "chat"
  /\ run sample_env idle s empty_world
     = (Rerun, {| ss := session_defaults; world := empty_world; ui := [] |}).
Proof.
  assert (H1 : page (set_page (str "settings") session_defaults) <> str "main")
    by (vm_compute; discriminate).
  assert (H2 : page (set_page (str "settings") session_defaults) <> str "summary")
    by (vm_compute; discriminate).
  assert (H3 : page (set_page (str "settings") session_defaults) <> str "ppt")
    by (vm_compute; discriminate).
  assert (H4 : page (set_page (str "settings") session_defaults) <> str "chat")
    by (vm_compute; discriminate).
  intro s. refine (conj H1 (conj H2 (conj H3 (conj H4 _)))).
  exact (proj1 (invalid_page_redirects_home sample_env idle
                  (set_page (str "settings") session_defaults) empty_world
                  H1 H2 H3 H4)).
Defined.

(** * Further properties of the program *)

(** ** Lines: [split] and [join] *)

Section Lines.

Variable sep : N.

Lemma split_not_nil s : split sep s <> [].
Proof.
  destruct s as [|c t]; simpl; [discriminate|].
  destruct (c =? sep)%N; [discriminate|].
  destruct (split sep t); discriminate.
Qed.

Lemma split_no_sep s : Forall (fun l => ~ In sep l) (split sep s).
Proof.
  induction s as [|c t IH]; simpl.
  - constructor; [intros [] | constructor].
  - destruct (N.eqb_spec c sep) as [->|Hc].
    + constructor; [intros [] | exact IH].
    + destruct (split sep t) as [|cur rest]; constructor.
      * intros [H|[]]. congruence.
      * constructor.
      * inversion IH; subst. intros [H|H]; [congruence | auto].
      * now inversion IH.
Qed.

Lemma join_split s : join [sep] (split sep s) = s.
Proof.
  induction s as [|c t IH]; simpl; [reflexivity|].
  destruct (N.eqb_spec c sep) as [->|Hc].
  - pose proof (split_not_nil t) as Hn.
    cbn [join]. destruct (split sep t) as [|x r] eqn:Hs; [congruence|].
    simpl. f_equal. exact IH.
  - pose proof (split_not_nil t) as Hn.
    destruct (split sep t) as [|cur rest] eqn:Hs; [congruence|].
    cbn [join] in *. destruct rest as [|y r]; simpl in *; now rewrite <- IH.
Qed.

Lemma split_one l : ~ In sep l -> split sep l = [l].
Proof.
  induction l as [|c t IH]; simpl; [reflexivity|]. intro H.
  destruct (N.eqb_spec c sep) as [->|Hc]; [exfalso; auto|].
  rewrite IH by auto. reflexivity.
Qed.

Lemma split_app l rest :
  ~ In sep l -> split sep (l ++ sep :: rest) = l :: split sep rest.
Proof.
  induction l as [|c t IH]; simpl; intro H.
  - now rewrite N.eqb_refl.
  - destruct (N.eqb_spec c sep) as [->|Hc]; [exfalso; auto|].
    rewrite IH by auto. reflexivity.
Qed.

Lemma split_join ls :
  ls <> [] -> Forall (fun l => ~ In sep l) ls -> split sep (join [sep] ls) = ls.
Proof.
  induction ls as [|l rest IH]; [congruence|]. intros _ H.
  inversion H as [|? ? Hl Hrest]; subst. cbn [join].
  destruct rest as [|l' rest'].
  - now apply split_one.
  - change ([sep] ++ join [sep] (l' :: rest')) with (sep :: join [sep] (l' :: rest')).
    rewrite split_app by exact Hl. f_equal. apply IH; [discriminate | exact Hrest].
Qed.

End Lines.

(** ** White space: [strip] *)

Lemma lstrip_decompose s :
  exists pre, s = pre ++ lstrip s /\ forallb is_space pre = true.
Proof.
  induction s as [|c t (pre & Heq & Hpre)]; simpl.
  - now exists [].
  - destruct (is_space c) eqn:Hc.
    + exists (c :: pre). simpl. rewrite Hc, Hpre. split; [now f_equal | reflexivity].
    + now exists [].
Qed.

Lemma lstrip_head s c t : lstrip s = c :: t -> is_space c = false.
Proof.
  induction s as [|x s IH]; simpl; [discriminate|].
  destruct (is_space x) eqn:Hx; [exact IH|].
  now intros [= <- _].
Qed.

(** [strip] removes white space at both ends and nothing else. *)
Lemma strip_decompose s :
  exists pre post,
    s = pre ++ strip s ++ post
    /\ forallb is_space pre = true /\ forallb is_space post = true.
Proof.
  unfold strip, rstrip.
  destruct (lstrip_decompose s) as (pre & Hs & Hpre).
  destruct (lstrip_decompose (rev (lstrip s))) as (pre' & Hr & Hpre').
  exists pre, (rev pre'). repeat split.
  - rewrite <- rev_app_distr, <- Hr, rev_involutive. exact Hs.
  - exact Hpre.
  - now rewrite forallb_rev.
Qed.

Lemma strip_trimmed s : truthy (strip s) = true -> trimmed (strip s) = true.
Proof.
  unfold strip, rstrip, trimmed. intro Hne.
  destruct (lstrip_decompose (rev (lstrip s))) as (pre' & Hr & _).
  destruct (lstrip (rev (lstrip s))) as [|d v] eqn:Hv; [discriminate|].
  pose proof (lstrip_head _ _ _ Hv) as Hd.
  pose proof (rev_involutive (d :: v)) as Hrr.
  apply (f_equal (@rev N)) in Hr. rewrite rev_involutive, rev_app_distr in Hr.
  destruct (rev (d :: v)) as [|c w] eqn:Hw; [discriminate|].
  rewrite Hrr. cbn [app] in Hr. pose proof (lstrip_head _ _ _ Hr) as Hc.
  now rewrite Hc, Hd.
Qed.

Lemma strip_incl s c : In c (strip s) -> In c s.
Proof.
  destruct (strip_decompose s) as (pre & post & Heq & _).
  intro H. rewrite Heq. apply in_or_app. right. apply in_or_app. now left.
Qed.

Lemma trimmed_strip h : trimmed h = true -> strip h = h.
Proof.
  unfold trimmed, strip, rstrip.
  destruct h as [|c t]; [discriminate|].
  destruct (rev (c :: t)) as [|d w] eqn:Hrev; [discriminate|].
  intro H. apply andb_true_iff in H as [Hc Hd].
  apply negb_true_iff in Hc, Hd.
  cbn [lstrip]. rewrite Hc, Hrev. cbn [lstrip]. rewrite Hd.
  now rewrite <- Hrev, rev_involutive.
Qed.

(** ** Deck Exporter: headings and bullets *)

(** X2.  Every slide title the exporter keeps is one heading line
    without the white space around it: it is not empty, neither starts
    nor ends with white space and holds no line break. *)
Theorem heading_titles_are_trimmed (headings : pystr) :
  Forall (fun h =>
            trimmed h = true
            /\ ~ In NL h
            /\ exists pre post,
                 In (pre ++ h ++ post) (split NL headings)
                 /\ forallb is_space pre = true
                 /\ forallb is_space post = true)
    (heading_lines headings).
Proof.
  unfold heading_lines. apply Forall_forall. intros h Hin.
  apply in_map_iff in Hin as (line & <- & Hline).
  apply filter_In in Hline as [Hline Hkeep].
  split; [now apply strip_trimmed|]. split.
  - intro Hnl. apply strip_incl in Hnl.
    pose proof (split_no_sep NL headings) as Hsep.
    rewrite Forall_forall in Hsep. exact (Hsep _ Hline Hnl).
  - destruct (strip_decompose line) as (pre & post & Heq & Hpre & Hpost).
    exists pre, post. now rewrite <- Heq.
Qed.

Lemma bullets_filter response_text :
  filter (fun point => truthy (strip point)) (split NL response_text)
  = bullet_points response_text.
Proof. apply filter_ext. intro p. apply strip_truthy. Qed.

(** X1.  The text of a content slide has one line per non-blank line
    of the answer of the service, in order, each made of "- " and the
    line as it came (not stripped); an answer without any non-blank
    line gives the empty text. *)
Theorem bullets_one_line_per_point (response_text : pystr) :
  split NL (bullets response_text)
  = match bullet_points response_text with
    | [] => [[]]
    | _ :: _ => map (fun point => str "- " ++ point) (bullet_points response_text)
    end
  /\ (bullets response_text = [] <-> bullet_points response_text = []).
Proof.
  unfold bullets. rewrite bullets_filter.
  assert (Hsep : Forall (fun l => ~ In NL l)
                   (map (fun point => str "- " ++ point) (bullet_points response_text))).
  { apply Forall_forall. intros l Hl.
    apply in_map_iff in Hl as (p & <- & Hp).
    apply filter_In in Hp as [Hp _].
    pose proof (split_no_sep NL response_text) as Hno.
    rewrite Forall_forall in Hno. intro Hin.
    apply in_app_or in Hin as [Hin|Hin]; [|exact (Hno _ Hp Hin)].
    vm_compute in Hin. intuition discriminate. }
  destruct (bullet_points response_text) as [|p rest] eqn:Hpts.
  - split; [reflexivity | tauto].
  - split.
    + apply split_join; [discriminate | exact Hsep].
    + split; [|discriminate]. intro H. exfalso.
      cbn [map join] in H.
      destruct (map (fun point => str "- " ++ point) rest); discriminate.
Qed.

(** ** Home screen: recording, transcription, navigation *)

(** Case analysis on what a run of the home screen reads. *)
Ltac home_cases :=
  repeat (go;
          match goal with
          | H : audio_data ?s = _ |- context [audio_data ?s] => rewrite H
          | H : transcription ?s = _ |- context [transcription ?s] => rewrite H
          | H : in_recorder ?i = _ |- context [in_recorder ?i] => rewrite H
          | H : click_new_session ?i = _ |- context [click_new_session ?i] => rewrite H
          | H : whisperx_align ?E ?p = _ |- context [whisperx_align ?E ?p] => rewrite H
          | H : truthy ?t = _ |- context [truthy ?t] => rewrite H
          | |- context [match audio_data ?s with _ => _ end] =>
              destruct (audio_data s) eqn:?
          | |- context [match in_recorder ?i with _ => _ end] =>
              destruct (in_recorder i) eqn:?
          | |- context [match whisperx_align ?E ?p with _ => _ end] =>
              destruct (whisperx_align E p) eqn:?
          | |- context [click_new_session ?i] => destruct (click_new_session i) eqn:?
          | |- context [if negb (truthy ?t) then _ else _] => destruct (truthy t) eqn:?
          | |- context [if truthy ?t then _ else _] => destruct (truthy t) eqn:?
          | |- context [if click_generate_summary ?i then _ else _] =>
              destruct (click_generate_summary i) eqn:?
          | |- context [if click_create_ppt ?i then _ else _] =>
              destruct (click_create_ppt i) eqn:?
          | |- context [if click_chat ?i then _ else _] =>
              destruct (click_chat i) eqn:?
          end);
  go.

Section Home.

Variable E : Env.
Variable inp : Inputs.

(** X3.  When a recording arrives in a session without one, the home
    screen keeps it, writes its bytes to a temporary [.wav] file that
    did not exist before, keeps that path, hands exactly that path to
    WhisperX and stores as transcript one line "[start s] text" per
    segment, in order; the generative service is not called. *)
Theorem recording_is_saved_and_transcribed (s : SessionState) (w : World)
    (rec : Audio) (segments : list Segment) :
  let tmp_audio := {| tmp_id := length (files w); suffix := str ".wav" |} in
  audio_data s = None -> transcription s = [] ->
  in_recorder inp = Some rec ->
  whisperx_align E (Some tmp_audio) = inr segments ->
  let after := snd (main_page E inp (start s w)) in
  audio_data (ss after) = Some rec
  /\ audio_path (ss after) = Some tmp_audio
  /\ lookup_file w tmp_audio = None
  /\ lookup_file (world after) tmp_audio = Some (Bytes rec)
  /\ transcription (ss after)
     = join [NL] (map (fun seg => str "[" ++ start_2f seg ++ str "s] " ++ text seg)
                    segments)
  /\ gen_log (world after) = gen_log w.
Proof.
  intros tmp_audio Ha Ht Hrec Hw after. subst after tmp_audio.
  split; [|split; [|split; [apply (next_tmp_fresh (str ".wav") (start s w))|]]].
  all: unfold main_page, transcribe_audio; home_cases.
  all: rewrite ?replace_nth_last, ?lookup_file_last; repeat split.
Qed.


Lemma set_transcription_same s t : transcription s = t -> set_transcription t s = s.
Proof. destruct s. simpl. now intros ->. Qed.

(** X4.  A recording in which WhisperX finds no segment gives the empty
    transcript, which counts as no transcript: the run shows the
    recording and nothing else - no transcript, no action button, no
    message -, the session is as before, and so every run transcribes
    again. *)
Theorem recording_without_speech_is_transcribed_again (s : SessionState)
    (w : World) (a : Audio) :
  audio_data s = Some a -> transcription s = [] ->
  click_new_session inp = false ->
  whisperx_align E (audio_path s) = inr [] ->
  main_page E inp (start s w)
  = (Ret tt,
     {| ss := s; world := w;
        ui := [ Title ([0x1F3A4%N] ++ str " Voice AI Assistant"); AudioPlayer a ] |}).
Proof.
  intros Ha Ht Hclick Hw. unfold main_page, transcribe_audio. home_cases.
  now rewrite set_transcription_same.
Qed.

End Home.

Lemma recording_is_saved_and_transcribed_witness :
  audio_data session_defaults = None /\ transcription session_defaults = []
  /\ in_recorder (with_recording memo idle) = Some memo
  /\ transcription
       (ss (snd (main_page sample_env (with_recording memo idle)
                   (start session_defaults empty_world))))
     = str "[0.00s] Hello world".
Proof.
  split; [reflexivity|]. split; [reflexivity|]. split; [reflexivity|].
  exact (proj1 (proj2 (proj2 (proj2 (proj2
           (recording_is_saved_and_transcribed sample_env (with_recording memo idle)
              session_defaults empty_world
              memo hello_segments eq_refl eq_refl eq_refl eq_refl)))))).
Defined.

Lemma recording_without_speech_is_transcribed_again_witness :
  audio_data recorded_session = Some memo /\ transcription recorded_session = []
  /\ click_new_session idle = false
  /\ ss (snd (main_page silent_audio_env idle (start recorded_session empty_world)))
     = recorded_session.
Proof.
  split; [reflexivity|]. split; [reflexivity|]. split; [reflexivity|].
  exact (f_equal (fun r => ss (snd r))
           (recording_without_speech_is_transcribed_again silent_audio_env idle
              recorded_session
              empty_world memo eq_refl eq_refl eq_refl eq_refl)).
Defined.

(** ** Session invariants *)

Lemma derived_screen_frame_refl s : derived_screen_frame s s.
Proof. unfold derived_screen_frame. auto. Qed.

Lemma derived_screen_frame_trans s1 s2 s3 :
  derived_screen_frame s1 s2 -> derived_screen_frame s2 s3 ->
  derived_screen_frame s1 s3.
Proof.
  unfold derived_screen_frame.
  intros (Ht & Ha & Hp & Hg) (Ht' & Ha' & Hp' & Hg').
  repeat split; try congruence.
  destruct Hg' as [Hg'|Hg']; [|now right].
  rewrite Hg'. exact Hg.
Qed.

#[local] Hint Resolve derived_screen_frame_refl : frame.

Ltac derived_frame :=
  frame derived_screen_frame_trans;
  unfold derived_screen_frame; simpl; auto.

Section Invariants.

Variable E : Env.
Variable inp : Inputs.

Lemma summary_page_frame : stable derived_screen_frame (summary_page E inp).
Proof. unfold summary_page. derived_frame. Qed.

Lemma ppt_page_frame : stable derived_screen_frame (ppt_page E inp).
Proof. unfold ppt_page. derived_frame. Qed.

Lemma chat_page_frame : stable derived_screen_frame (chat_page E inp).
Proof. unfold chat_page. derived_frame. Qed.

Lemma valid_page_main : valid_page (str "main") = true.
Proof. reflexivity. Qed.

Lemma session_ok_parts s :
  session_ok s = true <->
  valid_page (page s) = true
  /\ (pystr_eqb (page s) (str "main") || truthy (transcription s)) = true
  /\ (negb (truthy (transcription s)) || is_some (audio_data s)) = true
  /\ Bool.eqb (is_some (audio_data s)) (is_some (audio_path s)) = true.
Proof.
  unfold session_ok. rewrite !andb_true_iff. tauto.
Qed.

Lemma main_page_ok s w :
  page s = str "main" -> session_ok s = true ->
  session_ok (ss (snd (main_page E inp (start s w)))) = true.
Proof.
  intros Hpage Hok. apply session_ok_parts in Hok as (_ & _ & Hrec & Hpath).
  unfold main_page, transcribe_audio. home_cases.
  all: apply session_ok_parts; cbn; rewrite ?Hpage.
  all: repeat match goal with
              | H : truthy ?t = _ |- context [truthy ?t] => rewrite H
              | H : audio_data ?s = _ |- context [audio_data ?s] => rewrite H
              end.
  all: cbn [is_some negb orb andb Bool.eqb] in *.
  all: repeat split; try reflexivity; try assumption.
  all: rewrite ?orb_true_r; try reflexivity.
Qed.

Lemma session_ok_frame s s' :
  derived_screen_frame s s' -> session_ok s = true -> session_ok s' = true.
Proof.
  intros (Ht & Ha & Hp & Hg) Hok.
  apply session_ok_parts in Hok as (Hv & Hm & Hrec & Hpath).
  apply session_ok_parts. rewrite Ht, Ha, Hp.
  destruct Hg as [-> | ->]; repeat split; auto.
Qed.

(** The dispatch of the router, as a proof rule. *)
Lemma run_cases (P : Outcome unit * Machine -> Prop) s w :
  (page s = str "main" -> P (main_page E inp (start s w))) ->
  (page s = str "summary" -> P (summary_page E inp (start s w))) ->
  (page s = str "ppt" -> P (ppt_page E inp (start s w))) ->
  (page s = str "chat" -> P (chat_page E inp (start s w))) ->
  (valid_page (page s) = false ->
   P (Rerun, {| ss := set_page (str "main") s; world := w; ui := [] |})) ->
  P (run E inp s w).
Proof.
  intros Hmain Hsum Hppt Hchat Hbad.
  unfold run, app_flow, bind, get_ss, valid_page in *. simpl.
  destruct (pystr_eqb (page s) (str "main")) eqn:H1;
    [apply Hmain; now apply pystr_eqb_true|].
  destruct (pystr_eqb (page s) (str "summary")) eqn:H2;
    [apply Hsum; now apply pystr_eqb_true|].
  destruct (pystr_eqb (page s) (str "ppt")) eqn:H3;
    [apply Hppt; now apply pystr_eqb_true|].
  destruct (pystr_eqb (page s) (str "chat")) eqn:H4;
    [apply Hchat; now apply pystr_eqb_true|].
  now apply Hbad.
Qed.

Lemma run_session_ok s w :
  session_ok s = true -> session_ok (ss (snd (run E inp s w))) = true.
Proof.
  intro Hok. apply run_cases; intro Hpage.
  - now apply main_page_ok.
  - exact (session_ok_frame _ _ (summary_page_frame (start s w)) Hok).
  - exact (session_ok_frame _ _ (ppt_page_frame (start s w)) Hok).
  - exact (session_ok_frame _ _ (chat_page_frame (start s w)) Hok).
  - apply session_ok_parts in Hok as (Hv & _). congruence.
Qed.

(** A transcript, once there, is not replaced on the home screen. *)
Lemma main_page_keeps_transcript s w :
  truthy (transcription s) = true ->
  transcription (ss (snd (main_page E inp (start s w)))) = transcription s
  \/ transcription (ss (snd (main_page E inp (start s w)))) = [].
Proof.
  intro Ht. unfold main_page, transcribe_audio. home_cases; auto.
Qed.

End Invariants.

Lemma reachable_session_ok s : reachable s -> session_ok s = true.
Proof.
  induction 1 as [|E inp s w _ IH]; [reflexivity|].
  now apply run_session_ok.
Qed.

(** X5.  In every session the program can reach: the current screen is
    one of "main", "summary", "ppt", "chat" (the fallback of the router
    is never taken); away from the home screen there is a transcript; a
    transcript comes with its recording; and the recording is there
    exactly when its file path is. *)
Theorem reachable_sessions_are_consistent (s : SessionState) :
  reachable s ->
  (page s = str "main" \/ page s = str "summary"
   \/ page s = str "ppt" \/ page s = str "chat")
  /\ (page s <> str "main" -> transcription s <> [])
  /\ (transcription s <> [] -> audio_data s <> None)
  /\ (audio_data s = None <-> audio_path s = None).
Proof.
  intro Hr. apply reachable_session_ok, session_ok_parts in Hr
    as (Hv & Hm & Hrec & Hpath).
  unfold valid_page in Hv. repeat split.
  - repeat (apply orb_true_iff in Hv as [Hv|Hv]);
      apply pystr_eqb_true in Hv; auto.
  - intros Hne Hempty. rewrite Hempty in Hm. simpl in Hm.
    rewrite orb_false_r in Hm. now apply pystr_eqb_true in Hm.
  - intros Hne Hnone. rewrite Hnone in Hrec. simpl in Hrec.
    rewrite orb_false_r in Hrec. apply negb_true_iff, truthy_false in Hrec.
    contradiction.
  - intro Hnone. rewrite Hnone in Hpath. now destruct (audio_path s).
  - intro Hnone. rewrite Hnone in Hpath. now destruct (audio_data s).
Qed.

Lemma reachable_sessions_are_consistent_witness :
  let s := ss (snd (run sample_env (with_recording memo idle)
                      session_defaults empty_world)) in
  reachable s /\ (audio_data s = None <-> audio_path s = None).
Proof.
  intro s.
  assert (Hr : reachable s) by (apply reach_run, reach_defaults).
  refine (conj Hr _).
  exact (proj2 (proj2 (proj2 (reachable_sessions_are_consistent s Hr)))).
Defined.

(** X6.  A transcript is never replaced by another one: whatever the
    screen, the inputs and the services, a run that starts with a
    transcript ends with the same transcript, or with none (New
    Session). *)
Theorem transcript_is_kept_or_cleared (E : Env) (inp : Inputs)
    (s : SessionState) (w : World) :
  truthy (transcription s) = true ->
  transcription (ss (snd (run E inp s w))) = transcription s
  \/ transcription (ss (snd (run E inp s w))) = [].
Proof.
  intro Ht. apply run_cases; intros _.
  - now apply main_page_keeps_transcript.
  - left. apply (summary_page_frame E inp (start s w)).
  - left. apply (ppt_page_frame E inp (start s w)).
  - left. apply (chat_page_frame E inp (start s w)).
  - now left.
Qed.

Lemma transcript_is_kept_or_cleared_witness :
  truthy (transcription used_session) = true
  /\ (transcription (ss (snd (run second_env idle used_session used_world)))
      = transcription used_session
      \/ transcription (ss (snd (run second_env idle used_session used_world))) = []).
Proof.
  refine (conj eq_refl _).
  exact (transcript_is_kept_or_cleared second_env idle used_session used_world eq_refl).
Defined.

(** ** Deck screen *)

Section DeckScreen.

Variable E : Env.
Variable inp : Inputs.

(** A visit of the deck screen without any action. *)
Lemma ppt_page_idle s w p data :
  click_back inp = false -> click_form_submit inp = false ->
  ppt_path s = Some p -> lookup_file w p = Some data ->
  ppt_page E inp (start s w)
  = (Ret tt, {| ss := s; world := w;
                ui := [deck_title; deck_form; deck_ready; deck_download data] |}).
Proof.
  intros Hback Hsubmit Hpath Hfile. unfold ppt_page. go.
  rewrite Hback. go. rewrite Hsubmit. go. rewrite Hpath. go.
  rewrite Hfile. reflexivity.
Qed.

(** A submission of the form. *)
Lemma ppt_page_submit s w :
  click_back inp = false -> click_form_submit inp = true ->
  let sent := log_prompts (sent_slide_prompts E (length (gen_log w))
                             (transcription s) (heading_lines (in_headings inp)))
                {| ss := s; world := w; ui := [deck_title; deck_form] |} in
  ppt_page E inp (start s w)
  = match deck_build E inp (in_title inp) (in_headings inp) (start s w) with
    | inl e =>
        (Ret tt,
         {| ss := set_ppt_path None s;
            world :=
              match title_refused E inp (in_title inp) with
              | Some _ => w
              | None =>
                  match content_slides E (length (gen_log w)) (transcription s)
                          (heading_lines (in_headings inp)) with
                  | inl _ => world sent
                  | inr _ => world (with_new_file (str ".pptx") (Bytes []) sent)
                  end
              end;
            ui := [deck_title; deck_form;
                   ErrorBox (str "PPT Error: " ++ str_of_exn e)] |})
    | inr slides =>
        (Ret tt,
         {| ss := set_ppt_path (Some (next_tmp (str ".pptx") (start s w))) s;
            world := world (with_new_file (str ".pptx") (Deck slides) sent);
            ui := [deck_title; deck_form; deck_ready; deck_download (Deck slides)] |})
    end.
Proof.
  intros Hback Hsubmit sent. unfold ppt_page, deck_build. go.
  rewrite Hback. go. rewrite Hsubmit. go.
  rewrite create_presentation_eq. go.
  destruct (title_refused E inp (in_title inp)) as [e|]; go; [reflexivity|].
  destruct (content_slides E _ _ _) as [e|l]; go; [reflexivity|].
  destruct (prs_save E _) as [e|]; go; [reflexivity|].
  unfold next_tmp. go. rewrite lookup_file_last. reflexivity.
Qed.

End DeckScreen.

(** X7.  When the form is submitted and something raises while the
    deck is built or saved - a text that python-pptx refuses, a call of
    the service, the saving -, the deck screen ends normally, shows that
    error and no download button, and the session has no deck path any
    more - also when a deck from an earlier submission was cached. *)
Theorem failed_submission_drops_cached_deck (E : Env) (inp : Inputs)
    (s : SessionState) (w : World) (e : Exn) :
  click_back inp = false -> click_form_submit inp = true ->
  deck_build E inp (in_title inp) (in_headings inp) (start s w) = inl e ->
  let r := ppt_page E inp (start s w) in
  fst r = Ret tt
  /\ ppt_path (ss (snd r)) = None
  /\ ui (snd r)
     = [deck_title; deck_form; ErrorBox (str "PPT Error: " ++ str_of_exn e)].
Proof.
  intros Hback Hsubmit Hbuild r. subst r.
  rewrite ppt_page_submit by assumption. rewrite Hbuild. now repeat split.
Qed.

(** A refused title and a failing service together: the title is
    assigned first, so its error is the one shown, and the service is
    not called. *)
Example refused_title_is_reported_first :
  let inp := with_form_submit
               {| in_recorder := None; click_new_session := false;
                  click_generate_summary := false; click_create_ppt := false;
                  click_chat := false; click_back := false;
                  in_title := str "Report " ++ [0xFFFF%N];
                  in_headings := str "Introduction"; click_form_submit := false;
                  in_chat := None; now := str "03 Nov 2026 10:31" |} in
  let r := ppt_page failing_gen_env inp
             (start (set_page (str "ppt") used_session) used_world) in
  ui (snd r)
  = [deck_title; deck_form; ErrorBox (str "PPT Error: " ++ exn_msg lxml_error)]
  /\ prompts_after r = []
  /\ ppt_path (ss (snd r)) = None.
Proof. vm_compute. repeat split. Qed.

Lemma failed_submission_drops_cached_deck_witness :
  let inp := with_form_submit idle in
  let s := set_page (str "ppt") used_session in
  click_back inp = false /\ click_form_submit inp = true
  /\ ppt_path s = Some first_memo_pptx
  /\ ppt_path (ss (snd (ppt_page failing_gen_env inp (start s used_world)))) = None.
Proof.
  intros inp s. refine (conj eq_refl (conj eq_refl (conj eq_refl _))).
  exact (proj1 (proj2 (failed_submission_drops_cached_deck failing_gen_env inp s
                         used_world quota_error eq_refl eq_refl eq_refl))).
Defined.

(** X8.  When the form is submitted and nothing raises, the deck screen
    saves the deck under a name not used before, keeps that path and
    offers exactly this deck for download as [voice_analysis.pptx]; and
    every later visit without action offers the same deck again, leaving
    session and files as they are. *)
Theorem submission_offers_the_new_deck (E : Env) (inp : Inputs)
    (s : SessionState) (w : World) (slides : list Slide) :
  click_back inp = false -> click_form_submit inp = true ->
  deck_build E inp (in_title inp) (in_headings inp) (start s w) = inr slides ->
  let r := ppt_page E inp (start s w) in
  let p := {| tmp_id := length (files w); suffix := str ".pptx" |} in
  fst r = Ret tt
  /\ ppt_path (ss (snd r)) = Some p
  /\ lookup_file w p = None
  /\ lookup_file (world (snd r)) p = Some (Deck slides)
  /\ ui (snd r) = [deck_title; deck_form; deck_ready; deck_download (Deck slides)]
  /\ forall E' inp',
       click_back inp' = false -> click_form_submit inp' = false ->
       ppt_page E' inp' (start (ss (snd r)) (world (snd r)))
       = (Ret tt,
          {| ss := ss (snd r); world := world (snd r);
             ui := [deck_title; deck_form; deck_ready; deck_download (Deck slides)] |}).
Proof.
  intros Hback Hsubmit Hbuild r p. subst r.
  rewrite ppt_page_submit by assumption. rewrite Hbuild. cbn [fst snd ss world ui].
  assert (Hfile : lookup_file
                    (world (with_new_file (str ".pptx") (Deck slides)
                              (log_prompts
                                 (sent_slide_prompts E (length (gen_log w))
                                    (transcription s) (heading_lines (in_headings inp)))
                                 {| ss := s; world := w; ui := [deck_title; deck_form] |})))
                    p = Some (Deck slides))
    by apply lookup_file_last.
  repeat split.
  - apply (next_tmp_fresh (str ".pptx") (start s w)).
  - exact Hfile.
  - intros E' inp' Hback' Hsubmit'.
    now apply ppt_page_idle with (p := p).
Qed.

Lemma submission_offers_the_new_deck_witness :
  let inp := with_form_submit idle in
  let s := set_page (str "ppt") transcribed_session in
  click_back inp = false /\ click_form_submit inp = true
  /\ ppt_path (ss (snd (ppt_page sample_env inp (start s empty_world))))
     = Some {| tmp_id := 0; suffix := str ".pptx" |}.
Proof.
  intros inp s. refine (conj eq_refl (conj eq_refl _)).
  exact (proj1 (proj2 (submission_offers_the_new_deck sample_env inp s empty_world
                         [ title_slide inp (in_title inp);
                           content_slide (str "Introduction") (str "- Greeting");
                           content_slide (str "Key Findings") (str "- Greeting") ]
                         eq_refl eq_refl eq_refl))).
Defined.

(** ** Chat screen: what a submission sends *)

Lemma last5_snoc {A} (l : list A) (x : A) :
  last5 (l ++ [x]) = skipn (length l - 4) l ++ [x].
Proof.
  unfold last5. rewrite length_app. simpl length.
  replace (length l + 1 - 5) with (length l - 4) by lia.
  rewrite skipn_app.
  replace (length l - 4 - length l) with 0 by lia. reflexivity.
Qed.

Lemma chat_prompt_window pr T h q :
  chat_prompt pr T h q = chat_prompt pr T (last5 h) q.
Proof. unfold chat_prompt. now rewrite last5_idem. Qed.

(** X9.  On the submission of a question the chat screen sends one
    prompt, built when the question is already in the log: its history
    is the question itself preceded by the last four messages of the
    earlier log (all of them when there are fewer).  The handler then
    asks for a rerun, having shown only the earlier messages. *)
Theorem chat_submission_sends_question_and_four (E : Env) (inp : Inputs)
    (s : SessionState) (w : World) (q : pystr) :
  click_back inp = false -> in_chat inp = Some q -> truthy q = true ->
  let asked := {| role := str "user"; content := q |} in
  let earlier := skipn (length (messages s) - 4) (messages s) in
  let r := chat_page E inp (start s w) in
  fst r = Rerun
  /\ prompts_after r
     = gen_log w
       ++ [chat_prompt (isprintable E) (transcription s) (earlier ++ [asked]) q]
  /\ length earlier = Nat.min 4 (length (messages s))
  /\ ui (snd r)
     = Title ([0x1F4AC%N] ++ str " Voice Analysis Chat")
       :: map (fun msg => ChatBubble (role msg) (content msg)) (messages s).
Proof.
  intros Hback Hq Hne asked earlier r. subst r. split; [|split; [|split]].
  - unfold chat_page, append_message. go. rewrite Hback. go.
    rewrite show_history_eq. go. rewrite Hq. go. rewrite Hne. go.
    rewrite chat_response_eq. reflexivity.
  - rewrite chat_page_prompts, Hback, Hq, Hne. cbn [negb andb]. do 2 f_equal.
    rewrite chat_prompt_window.
    change {| role := role_user; content := q |} with asked.
    now rewrite last5_snoc.
  - unfold earlier. rewrite length_skipn. lia.
  - unfold chat_page, append_message. go. rewrite Hback. go.
    rewrite show_history_eq. go. rewrite Hq. go. rewrite Hne. go.
    rewrite chat_response_eq. reflexivity.
Qed.

Lemma chat_submission_sends_question_and_four_witness :
  let inp := with_question (str "And then?") idle in
  click_back inp = false /\ in_chat inp = Some (str "And then?")
  /\ truthy (str "And then?") = true
  /\ fst (chat_page sample_env inp (start used_session used_world)) = Rerun.
Proof.
  intro inp. refine (conj eq_refl (conj eq_refl (conj eq_refl _))).
  exact (proj1 (chat_submission_sends_question_and_four sample_env inp
                  used_session used_world (str "And then?")
                  eq_refl eq_refl eq_refl)).
Defined.

(** ** Summary screen: a failed generation *)

(** X10.  When the summary is generated and the service raises, the
    error string of the adapter becomes the cached summary; no later
    visit of the summary screen, whatever the services and the inputs,
    asks the service again. *)
Theorem failed_summary_is_cached_for_good (E : Env) (inp : Inputs)
    (s : SessionState) (w : World) (e : Exn) :
  click_back inp = false -> summary s = [] ->
  generate_content E (length (gen_log w)) (summary_prompt (transcription s))
  = inl e ->
  let r := summary_page E inp (start s w) in
  summary (ss (snd r)) = summary_error_marker ++ str_of_exn e
  /\ forall E' inp' w',
       prompts_after (summary_page E' inp' (start (ss (snd r)) w')) = gen_log w'.
Proof.
  intros Hback Hempty Hgen r.
  assert (Hsum : summary (ss (snd r)) = summary_error_marker ++ str_of_exn e).
  { subst r. rewrite summary_page_generates by assumption. rewrite Hgen.
    cbn [adapter_result]. now destruct (encode _). }
  split; [exact Hsum|]. intros E' inp' w'.
  rewrite summary_page_prompts, Hsum.
  unfold summary_error_marker. cbn [app truthy negb].
  now rewrite andb_false_r, app_nil_r.
Qed.

Lemma failed_summary_is_cached_for_good_witness :
  click_back idle = false /\ summary transcribed_session = []
  /\ summary (ss (snd (summary_page failing_gen_env idle
                         (start transcribed_session empty_world))))
     = summary_error_marker ++ str "429 quota exceeded".
Proof.
  refine (conj eq_refl (conj eq_refl _)).
  exact (proj1 (failed_summary_is_cached_for_good failing_gen_env idle
                  transcribed_session empty_world quota_error
                  eq_refl eq_refl eq_refl)).
Defined.

(** ** Navigation *)

Section Navigation.

Variable E : Env.
Variable inp : Inputs.

Lemma main_page_with_transcript (s : SessionState) (w : World) (a : Audio) :
  audio_data s = Some a -> truthy (transcription s) = true ->
  click_new_session inp = false ->
  main_page E inp (start s w)
  = (if click_generate_summary inp || click_create_ppt inp || click_chat inp
     then Rerun else Ret tt,
     {| ss := if click_generate_summary inp then set_page (str "summary") s
              else if click_create_ppt inp then set_page (str "ppt") s
              else if click_chat inp then set_page (str "chat") s
              else s;
        world := w;
        ui := [home_title; AudioPlayer a; Write (transcription s); home_rule] |}).
Proof.
  intros Ha Ht Hnew. unfold main_page, transcribe_audio. home_cases.
  all: reflexivity.
Qed.

(** X11.  At home with a transcribed recording (New Session not
    pressed) the run shows the recording and the transcript, consults no
    service - WhisperX is not run again -, touches no file, and changes
    the session only by the screen a pressed button names: "summary",
    else "ppt", else "chat", each followed by a rerun. *)
Theorem home_with_transcript_only_navigates (s : SessionState) (w : World)
    (a : Audio) :
  audio_data s = Some a -> truthy (transcription s) = true ->
  click_new_session inp = false ->
  main_page E inp (start s w)
  = (if click_generate_summary inp || click_create_ppt inp || click_chat inp
     then Rerun else Ret tt,
     {| ss := if click_generate_summary inp then set_page (str "summary") s
              else if click_create_ppt inp then set_page (str "ppt") s
              else if click_chat inp then set_page (str "chat") s
              else s;
        world := w;
        ui := [home_title; AudioPlayer a; Write (transcription s); home_rule] |}).
Proof.
  apply main_page_with_transcript.
Qed.

(** X12.  The Back button of the summary, deck and chat screens acts
    before anything else: the run shows the title only, sets the screen
    to "main" and reruns, without generating, exporting or recording a
    question, whatever else was submitted. *)
Theorem back_button_acts_first (s : SessionState) (w : World) :
  click_back inp = true ->
  summary_page E inp (start s w)
  = (Rerun, {| ss := set_page (str "main") s; world := w;
               ui := [Title ([0x1F4C4%N] ++ str " Executive Summary")] |})
  /\ ppt_page E inp (start s w)
     = (Rerun, {| ss := set_page (str "main") s; world := w; ui := [deck_title] |})
  /\ chat_page E inp (start s w)
     = (Rerun, {| ss := set_page (str "main") s; world := w;
                  ui := [Title ([0x1F4AC%N] ++ str " Voice Analysis Chat")] |}).
Proof.
  intro Hback. repeat split.
  - unfold summary_page. go. rewrite Hback. reflexivity.
  - unfold ppt_page. go. rewrite Hback. reflexivity.
  - unfold chat_page. go. rewrite Hback. reflexivity.
Qed.

Lemma chat_page_idle s w :
  click_back inp = false -> in_chat inp = None ->
  chat_page E inp (start s w)
  = (Ret tt,
     {| ss := s; world := w;
        ui := Title ([0x1F4AC%N] ++ str " Voice Analysis Chat")
              :: map (fun msg => ChatBubble (role msg) (content msg)) (messages s) |}).
Proof.
  intros Hback Hq. unfold chat_page. go. rewrite Hback. go.
  rewrite show_history_eq. go. rewrite Hq. reflexivity.
Qed.

Lemma ppt_page_idle_empty s w :
  click_back inp = false -> click_form_submit inp = false ->
  ppt_path s = None ->
  ppt_page E inp (start s w)
  = (Ret tt, {| ss := s; world := w; ui := [deck_title; deck_form] |}).
Proof.
  intros Hback Hsubmit Hpath. unfold ppt_page. go.
  rewrite Hback. go. rewrite Hsubmit. go. rewrite Hpath. reflexivity.
Qed.

Lemma no_action_parts :
  no_action inp = true ->
  click_new_session inp = false /\ click_generate_summary inp = false
  /\ click_create_ppt inp = false /\ click_chat inp = false
  /\ click_back inp = false /\ click_form_submit inp = false
  /\ in_chat inp = None.
Proof.
  unfold no_action. rewrite !andb_true_iff, !negb_true_iff.
  intros ((((((H1 & H2) & H3) & H4) & H5) & H6) & H7).
  repeat split; try assumption. now destruct (in_chat inp).
Qed.

End Navigation.

(** X13.  A rerun without any user action on a settled session is a
    pure redisplay: whatever the services would answer, the run ends
    normally and leaves the session, the files and the log of prompts
    exactly as they were. *)
Theorem idle_rerun_changes_nothing (E : Env) (inp : Inputs)
    (s : SessionState) (w : World) :
  no_action inp = true -> settled s w = true ->
  fst (run E inp s w) = Ret tt
  /\ ss (snd (run E inp s w)) = s
  /\ world (snd (run E inp s w)) = w.
Proof.
  intros Hidle Hset.
  destruct (no_action_parts inp Hidle) as (Hnew & Hsum & Hppt & Hchat & Hback & Hsub & Hq).
  unfold settled in Hset. apply run_cases; intro Hpage.
  - rewrite Hpage, pystr_eqb_refl in Hset.
    apply andb_true_iff in Hset as [Ha Ht].
    destruct (audio_data s) as [a|] eqn:Haudio; [|discriminate].
    rewrite (main_page_with_transcript E inp s w a) by assumption.
    rewrite Hsum, Hppt, Hchat. now repeat split.
  - rewrite Hpage in Hset. cbn in Hset.
    apply andb_true_iff in Hset as [Ht Hf].
    destruct (summary_path s) as [p|] eqn:Hp; [|discriminate].
    destruct (lookup_file w p) as [data|] eqn:Hfile; [|discriminate].
    rewrite (summary_page_cached E inp s w p data) by assumption.
    now repeat split.
  - rewrite Hpage in Hset. cbn in Hset.
    destruct (ppt_path s) as [p|] eqn:Hp.
    + destruct (lookup_file w p) as [data|] eqn:Hfile; [|discriminate].
      rewrite (ppt_page_idle E inp s w p data) by assumption. now repeat split.
    + rewrite ppt_page_idle_empty by assumption. now repeat split.
  - rewrite chat_page_idle by assumption. now repeat split.
  - exfalso. unfold valid_page in Hpage.
    repeat (apply orb_false_iff in Hpage as [Hpage ?]).
    rewrite Hpage in Hset.
    repeat match goal with H : pystr_eqb _ _ = false |- _ => rewrite H in Hset end.
    discriminate.
Qed.

Lemma idle_rerun_changes_nothing_witness :
  no_action idle = true /\ settled used_session used_world = true
  /\ ss (snd (run second_env idle used_session used_world)) = used_session.
Proof.
  refine (conj eq_refl (conj eq_refl _)).
  exact (proj1 (proj2 (idle_rerun_changes_nothing second_env idle used_session
                         used_world eq_refl eq_refl))).
Defined.

Lemma home_with_transcript_only_navigates_witness :
  audio_data used_session = Some memo
  /\ truthy (transcription used_session) = true
  /\ click_new_session (with_click_generate_summary idle) = false
  /\ fst (main_page second_env (with_click_generate_summary idle)
            (start used_session used_world)) = Rerun.
Proof.
  refine (conj eq_refl (conj eq_refl (conj eq_refl _))).
  exact (f_equal fst
           (home_with_transcript_only_navigates second_env
              (with_click_generate_summary idle) used_session used_world memo
              eq_refl eq_refl eq_refl)).
Defined.

Lemma back_button_acts_first_witness :
  click_back (with_click_back (with_form_submit idle)) = true
  /\ fst (ppt_page sample_env (with_click_back (with_form_submit idle))
            (start transcribed_session empty_world)) = Rerun.
Proof.
  refine (conj eq_refl _).
  exact (f_equal fst
           (proj1 (proj2 (back_button_acts_first sample_env
                            (with_click_back (with_form_submit idle))
                            transcribed_session empty_world eq_refl)))).
Defined.

(** ** Deck Exporter: the calls of the loop *)

Lemma sent_slide_prompts_spec E T hs : forall n,
  match content_slides E n T hs with
  | inr _ => sent_slide_prompts E n T hs = map (fun h => slide_prompt h T) hs
  | inl e =>
      exists k h,
        nth_error hs k = Some h
        /\ ((shape_set_text E h = Some e
             /\ sent_slide_prompts E n T hs
                = map (fun h => slide_prompt h T) (firstn k hs))
            \/ (shape_set_text E h = None
                /\ sent_slide_prompts E n T hs
                   = map (fun h => slide_prompt h T) (firstn (S k) hs)
                /\ match generate_content E (n + k) (slide_prompt h T) with
                   | inl e' => e' = e
                   | inr t => shape_set_text E (bullets t) = Some e
                   end))
  end.
Proof.
  induction hs as [|h rest IH]; intro n; [reflexivity|].
  cbn [content_slides sent_slide_prompts].
  destruct (shape_set_text E h) as [e|] eqn:Hh.
  { exists 0, h. split; [reflexivity|]. left. now split. }
  destruct (generate_content E n (slide_prompt h T)) as [e|t] eqn:Hgen.
  { exists 0, h. split; [reflexivity|]. right.
    rewrite Nat.add_0_r, Hgen. now repeat split. }
  destruct (shape_set_text E (bullets t)) as [e|] eqn:Hb.
  { exists 0, h. split; [reflexivity|]. right.
    rewrite Nat.add_0_r, Hgen. now repeat split. }
  specialize (IH (S n)).
  destruct (content_slides E (S n) T rest) as [e|l].
  - destruct IH as (k & h' & Hnth & Hcase).
    exists (S k), h'. split; [exact Hnth|]. rewrite Nat.add_succ_r.
    destruct Hcase as [(Hre & Hsent)|(Hok & Hsent & Hwhy)].
    + left. split; [exact Hre|]. cbn [firstn map]. now rewrite Hsent.
    + right. split; [exact Hok|]. split; [|exact Hwhy].
      cbn [firstn map]. now rewrite Hsent.
  - cbn [map]. now rewrite IH.
Qed.

(** X14.  The exporter asks the service once per kept heading, in
    order, with the prompt that names the heading and carries the
    transcript, and stops as soon as anything raises.  If python-pptx
    refuses a text of the title slide, nothing is sent.  If it refuses a
    heading, the prompts of the headings before it were sent and no
    other.  If a call raises, or python-pptx refuses the bullets made of
    its answer, the prompts up to that heading were sent and no other. *)
Theorem exporter_stops_at_first_failure (E : Env) (inp : Inputs)
    (title headings : pystr) (m : Machine) :
  let hs := heading_lines headings in
  let n := length (gen_log (world m)) in
  let T := transcription (ss m) in
  let sent := prompts_after (create_presentation E inp title headings m) in
  match title_refused E inp title with
  | Some _ => sent = gen_log (world m)
  | None =>
      match content_slides E n T hs with
      | inr _ => sent = gen_log (world m) ++ map (fun h => slide_prompt h T) hs
      | inl e =>
          exists k h,
            nth_error hs k = Some h
            /\ ((shape_set_text E h = Some e
                 /\ sent = gen_log (world m)
                           ++ map (fun h => slide_prompt h T) (firstn k hs))
                \/ (shape_set_text E h = None
                    /\ sent = gen_log (world m)
                              ++ map (fun h => slide_prompt h T) (firstn (S k) hs)
                    /\ match generate_content E (n + k) (slide_prompt h T) with
                       | inl e' => e' = e
                       | inr t => shape_set_text E (bullets t) = Some e
                       end))
      end
  end.
Proof.
  intros hs n T sent. subst sent. unfold prompts_after.
  rewrite create_presentation_eq. fold hs n T.
  destruct (title_refused E inp title) as [e|]; [reflexivity|].
  pose proof (sent_slide_prompts_spec E T hs n) as Hspec.
  destruct (content_slides E n T hs) as [e|l].
  - destruct Hspec as (k & h & Hnth & Hcase).
    exists k, h. split; [exact Hnth|].
    destruct Hcase as [(Hre & Hsent)|(Hok & Hsent & Hwhy)].
    + left. split; [exact Hre|]. cbn. now rewrite Hsent.
    + right. split; [exact Hok|]. split; [|exact Hwhy]. cbn. now rewrite Hsent.
  - destruct (prs_save E _); cbn; now rewrite Hspec.
Qed.

(** ** Temporary files *)

Section Files.

Variable E : Env.
Variable inp : Inputs.

Ltac added_files :=
  rewrite ?replace_nth_last;
  first [ exists []; split; [now rewrite app_nil_r | simpl; lia]
        | eexists [_]; split; [reflexivity | simpl; lia] ].

Lemma main_page_adds_files s w :
  exists added,
    files (world (snd (main_page E inp (start s w)))) = files w ++ added
    /\ length added <= 1.
Proof.
  unfold main_page, transcribe_audio. home_cases; added_files.
Qed.

Lemma summary_page_adds_files s w :
  exists added,
    files (world (snd (summary_page E inp (start s w)))) = files w ++ added
    /\ length added <= 1.
Proof.
  unfold summary_page. go.
  destruct (click_back inp); go; [added_files|].
  destruct (truthy (summary s)); go.
  - destruct (summary_path s) as [p|]; go; [|added_files].
    destruct (lookup_file w p); added_files.
  - rewrite generate_summary_eq. go.
    destruct (encode _); go; [|added_files].
    rewrite replace_nth_last, lookup_file_last. added_files.
Qed.

Lemma ppt_page_adds_files s w :
  exists added,
    files (world (snd (ppt_page E inp (start s w)))) = files w ++ added
    /\ length added <= 1.
Proof.
  unfold ppt_page. go.
  destruct (click_back inp); go; [added_files|].
  destruct (click_form_submit inp); go.
  - rewrite create_presentation_eq. go.
    destruct (title_refused E inp (in_title inp)); go; [added_files|].
    destruct (content_slides E _ _ _) as [e|l]; go; [added_files|].
    destruct (prs_save E _); go; [added_files|].
    destruct (lookup_file _ _); added_files.
  - destruct (ppt_path s) as [p|]; go; [|added_files].
    destruct (lookup_file w p); added_files.
Qed.

Lemma chat_page_adds_files s w :
  exists added,
    files (world (snd (chat_page E inp (start s w)))) = files w ++ added
    /\ length added <= 1.
Proof.
  unfold chat_page, append_message. go.
  destruct (click_back inp); go; [added_files|].
  rewrite show_history_eq. go.
  destruct (in_chat inp) as [q|]; go; [|added_files].
  destruct (truthy q); go; [|added_files].
  rewrite chat_response_eq. added_files.
Qed.

End Files.

(** X15.  No run deletes or rewrites a temporary file: the files after
    a run are the files before it, unchanged and in place, followed by
    at most one new file. *)
Theorem run_only_adds_a_file (E : Env) (inp : Inputs) (s : SessionState)
    (w : World) :
  exists added,
    files (world (snd (run E inp s w))) = files w ++ added
    /\ length added <= 1.
Proof.
  apply (run_cases E inp
           (fun r => exists added,
                       files (world (snd r)) = files w ++ added
                       /\ length added <= 1)); intros _.
  - apply main_page_adds_files.
  - apply summary_page_adds_files.
  - apply ppt_page_adds_files.
  - apply chat_page_adds_files.
  - exists []. split; [now rewrite app_nil_r | simpl; lia].
Qed.

(** ** Prompt Builder: how a message is printed *)

(** X17.  A message whose role and content hold no quote, no backslash,
    no control character and only printable characters is printed in the
    HISTORY of the chat prompt letter for letter, as
    [{'role': '<role>', 'content': '<content>'}]. *)
Theorem plain_message_is_printed_verbatim (pr : N -> bool) (msg : ChatMessage) :
  forallb (plain_char pr) (role msg) = true ->
  forallb (plain_char pr) (content msg) = true ->
  repr_message pr msg
  = str "{'role': '" ++ role msg ++ str "', 'content': '" ++ content msg ++ str "'}".
Proof.
  intros Hrole Hcontent. unfold repr_message.
  rewrite (repr_str_plain pr _ Hrole), (repr_str_plain pr _ Hcontent).
  unfold QUOTE. rewrite <- !app_assoc. reflexivity.
Qed.

Lemma plain_message_is_printed_verbatim_witness :
  let msg := {| role := str "user"; content := str "Who speaks?" |} in
  forallb (plain_char (fun _ => true)) (role msg) = true
  /\ forallb (plain_char (fun _ => true)) (content msg) = true
  /\ repr_message (fun _ => true) msg
     = str "{'role': 'user', 'content': 'Who speaks?'}".
Proof.
  intro msg. refine (conj eq_refl (conj eq_refl _)).
  exact (plain_message_is_printed_verbatim (fun _ => true) msg eq_refl eq_refl).
Defined.

(** ** [encode]: which texts have a UTF-8 encoding *)

Lemma utf8_char_none (c : N) :
  utf8_char c = None
  <-> ((0xD800 <= c)%N /\ (c <= 0xDFFF)%N) \/ (0x110000 <= c)%N.
Proof.
  unfold utf8_char.
  destruct (N.ltb_spec c 0x80); [split; [discriminate | lia]|].
  destruct (N.ltb_spec c 0x800); [split; [discriminate | lia]|].
  destruct (N.ltb_spec c 0x10000).
  - destruct (N.leb_spec 0xD800 c); destruct (N.leb_spec c 0xDFFF); cbn [andb];
      split; try discriminate; try lia; auto.
  - destruct (N.ltb_spec c 0x110000); split; try discriminate; try lia; auto.
Qed.

(** X18.  [encode] raises exactly on the texts that hold a surrogate
    (U+D800 to U+DFFF) or a value beyond U+10FFFF; every other text has
    an encoding, of one to four bytes per character. *)
Theorem encode_fails_only_on_surrogates (s : pystr) :
  (encode s = None
   <-> exists c, In c s
                 /\ (((0xD800 <= c)%N /\ (c <= 0xDFFF)%N) \/ (0x110000 <= c)%N))
  /\ match encode s with
     | Some data => length s <= length data <= 4 * length s
     | None => True
     end.
Proof.
  induction s as [|c t [IHiff IHlen]].
  - split; [|simpl; lia]. split; [discriminate | intros (c & [] & _)].
  - cbn [encode].
    destruct (utf8_char c) as [bs|] eqn:Hc.
    + assert (Hbs : 1 <= length bs <= 4).
      { unfold utf8_char in Hc.
        repeat match type of Hc with
               | (if ?b then _ else _) = _ => destruct b
               end; try discriminate; injection Hc as <-; simpl; lia. }
      destruct (encode t) as [rest|].
      * split.
        -- split; [discriminate|]. intros (x & [<-|Hin] & Hx).
           ++ apply utf8_char_none in Hx. congruence.
           ++ assert (Hnone : @None (list byte) = None) by reflexivity.
              destruct IHiff as [_ IH]. discriminate IH. now exists x.
        -- rewrite length_app. simpl length. lia.
      * split; [|exact I]. split; [|reflexivity]. intros _.
        destruct IHiff as [IH _]. destruct (IH eq_refl) as (x & Hin & Hx).
        exists x. split; [now right | exact Hx].
    + split; [|exact I]. split; [|reflexivity]. intros _.
      exists c. split; [now left | now apply utf8_char_none].
Qed.
